(** * Eureka, stage 3: masked robust statistics and diagnostic plots

    A shallow embedding of

    - [eureka/S3_data_reduction/plots_s3.py]: the twelve plotting routines,
      as functions from the metadata object and the figure indices to the
      updated metadata and the trace of effects (prints, log lines, figure
      selection, [savefig], [pause]);
    - [tests/test_general.py], [test_medstddev]: the assertions the
      repository makes about [eureka.lib.medstddev.medstddev];
    - [medstddev] itself, whose file is not among the sources: it is
      modelled from the specification, section 4.1.

    Floating-point values are the kernel's binary64 floats, so that
    not-a-number, the infinities and [sqrt] are the ones NumPy computes with.
    Python integers are [Z]; the metadata object is a finite map from
    attribute names to values. *)

From Stdlib Require Import Floats ZArith NArith Lia Bool Ascii String.
From stdpp Require Import base option list strings gmap.

Set Warnings "-inexact-float".

Local Open Scope Z_scope.

(** ** NumPy helpers on binary64 values *)

Module Np.

(** [np.isfinite]: neither not-a-number nor an infinity. *)
Definition isfinite (x : float) : bool :=
  negb (PrimFloat.is_nan x) && negb (PrimFloat.is_infinity x).

Definition isnan (x : float) : bool := PrimFloat.is_nan x.

(** A Python integer as a binary64 value (exact below 2^53). *)
Definition of_Z (z : Z) : float :=
  if z <? 0 then PrimFloat.opp (PrimFloat.of_uint63 (Uint63.of_Z (- z)))
  else PrimFloat.of_uint63 (Uint63.of_Z z).

Definition of_nat (n : nat) : float := of_Z (Z.of_nat n).

(** Left-to-right summation. *)
Definition fsum (l : list float) : float :=
  fold_left PrimFloat.add l 0%float.

(** Insertion sort by [<=] on floats (total on finite values). *)
Fixpoint insert_sorted (x : float) (l : list float) : list float :=
  match l with
  | [] => [x]
  | y :: l' => if PrimFloat.leb x y then x :: l else y :: insert_sorted x l'
  end.

Definition sort (l : list float) : list float :=
  fold_right insert_sorted [] l.

(** [np.median] of a flat sequence: the middle element of the sorted
    values, or the mean of the two middle elements; not-a-number on an
    empty sequence. *)
Definition median (l : list float) : float :=
  let s := sort l in
  let n := length s in
  if (n =? 0)%nat then PrimFloat.nan
  else if Nat.odd n then nth (n / 2)%nat s PrimFloat.nan
  else ((nth (n / 2 - 1)%nat s PrimFloat.nan + nth (n / 2)%nat s PrimFloat.nan) / 2)%float.

(** [np.mean] and [np.std] (population standard deviation, [ddof = 0]). *)
Definition mean (l : list float) : float :=
  (fsum l / of_nat (length l))%float.

Definition std (l : list float) : float :=
  let m := mean l in
  PrimFloat.sqrt (fsum (map (fun x => ((x - m) * (x - m))%float) l)
                  / of_nat (length l))%float.

(** [np.testing.assert_allclose(actual, desired)] on finite [desired], with
    its defaults [rtol = 1e-7], [atol = 0]:
    [|actual - desired| <= rtol * |desired|]. *)
Definition allclose (actual desired : float) : bool :=
  PrimFloat.leb (PrimFloat.abs (actual - desired))
                (1e-7 * PrimFloat.abs desired)%float.

End Np.

(** ** [medstddev]

    [eureka/lib/medstddev.py] is not among the sources; this module follows
    section 4.1 of the specification. *)

Module Medstddev.

(** Modelled from the spec: [medstddev.py] is missing. Steps 3 to 5, the
    statistics over the good values [g]: not-a-number twice when there is
    none, zero and the value when there is one, otherwise the median and
    the square root of the sum of squared deviations from the median over
    [n_good - 1]. *)
Definition stats (g : list float) : float * float :=
  match g with
  | [] => (PrimFloat.nan, PrimFloat.nan)
  | [x] => (0%float, x)
  | _ =>
      let med := Np.median g in
      (PrimFloat.sqrt
         (Np.fsum (map (fun x => ((x - med) * (x - med))%float) g)
          / (Np.of_nat (length g) - 1))%float,
       med)
  end.

(** The values of [a] whose flag in [flags] is set. *)
Fixpoint select (flags : list bool) (a : list float) : list float :=
  match flags, a with
  | f :: flags', x :: a' => if f then x :: select flags' a' else select flags' a'
  | _, _ => []
  end.

(** Modelled from the spec: [medstddev.py] is missing. Step 1, the
    effective mask, under a given reading of an explicit mask entry:
    [keep k] says whether entry [k] lets the sample through. Without a
    mask every sample passes this stage. A non-finite value is never good. *)
Definition good_flags (keep : Z -> bool) (a : list float) (mask : option (list Z))
  : list bool :=
  match mask with
  | None => map Np.isfinite a
  | Some m => zip_with (fun x k => keep k && Np.isfinite x) a m
  end.

(** Modelled from the spec: [medstddev.py] is missing. Steps 1 to 5 put
    together; the result is the pair (standard deviation, median). *)
Definition medstddev_with (keep : Z -> bool) (a : list float) (mask : option (list Z))
  : float * float :=
  stats (select (good_flags keep a mask) a).

(** Modelled from the spec: [medstddev.py] is missing. The algorithm is
    section 4.1, steps 1 to 5. Which mask entries are good is read off the
    repository's test of the routine: [tests/test_general.py] passes
    [mask = [0, 0, 1]] over [[1, 4, 6]] and asserts the median [6.0], and
    asserts not-a-number for the all-zero mask, so a non-zero entry marks a
    good sample. *)
Definition medstddev (a : list float) (mask : option (list Z)) : float * float :=
  medstddev_with (fun k => negb (k =? 0)) a mask.

(** Modelled from the spec: the same algorithm with the mask read in the
    words of the data model ("a sample is good iff its mask entry is
    false/zero"), kept for comparison with the test. *)
Definition medstddev_zero_good (a : list float) (mask : option (list Z)) : float * float :=
  medstddev_with (fun k => k =? 0) a mask.

(** Modelled from the spec: step 6, only the standard deviation unless
    [medi] asks for the median as well. *)
Inductive result :=
| Std (std : float)
| StdMed (std med : float).

Definition medstddev_medi (a : list float) (mask : option (list Z)) (medi : bool) : result :=
  let '(s, m) := medstddev a mask in
  if medi then StdMed s m else Std s.

(** The good values, as the routine selects them, and their number. *)
Definition good_values (a : list float) (mask : option (list Z)) : list float :=
  select (good_flags (fun k => negb (k =? 0)) a mask) a.

Definition n_good (a : list float) (mask : option (list Z)) : nat :=
  length (good_values a mask).

(** The samples of [a] that a criterion on the pair (mask entry, value)
    lets through: the values whose mask entry satisfies [good_entry] and
    that are finite. Used to state which samples contribute. *)
Definition good_samples (good_entry : Z -> bool) (a : list float) (mask : list Z)
  : list float :=
  fst <$> List.filter (fun p : float * Z => good_entry (snd p) && Np.isfinite (fst p))
                      (zip a mask).

End Medstddev.

(** ** [tests/test_general.py], [test_medstddev]

    The test as a predicate on an implementation [impl] of
    [medstddev(a, mask, medi=True)]: the conjunction of its assertions. *)

Module TestGeneral.

Definition a1 : list float := [1; 3; 4; 5; 6; 7; 7]%float.
Definition mask1 : list Z := [1; 1; 1; 0; 0; 0; 0].
Definition a2 : list float := [PrimFloat.nan; 1; 4; PrimFloat.infinity; 6]%float.
Definition a3 : list float := [1; 4; 6]%float.
Definition mask3 : list Z := [0; 0; 1].
(** [mask[-1] = 0] *)
Definition mask3' : list Z := <[ (length mask3 - 1)%nat := 0 ]> mask3.

Definition test_medstddev (impl : list float -> option (list Z) -> float * float) : bool :=
  let '(std, med) := impl a1 None in
  Np.allclose std 2.2360679775 && Np.allclose med 5.0 &&
  let '(std, med) := impl a1 (Some mask1) in
  Np.allclose std 1.58113883008 && Np.allclose med 3.0 &&
  let '(std, med) := impl a2 None in
  Np.allclose std 2.5495097567963922 && Np.allclose med 4.0 &&
  let '(std, med) := impl a3 (Some mask3) in
  PrimFloat.eqb std 0.0 && PrimFloat.eqb med 6.0 &&
  let '(std, med) := impl a3 (Some mask3') in
  Np.isnan std && Np.isnan med.

End TestGeneral.

(** ** Python values, [str], [str.zfill] and the padding width *)

Module Py.

Inductive value :=
| VNone
| VBool (b : bool)
| VInt (z : Z)
| VFloat (f : float)
| VStr (s : string).

Inductive exn :=
| AttributeError (attr : string)
| TypeError
| ValueError
| OverflowError
| IndexError
(** an input this model does not follow Python on (see [log10_width]) *)
| NotModelled.

(** [bool(v)] *)
Definition truthy (v : value) : bool :=
  match v with
  | VNone => false
  | VBool b => b
  | VInt z => negb (z =? 0)
  | VFloat f => negb (PrimFloat.eqb f 0)
  | VStr s => negb (String.eqb s "")
  end.

(** [v is None] *)
Definition is_none (v : value) : bool :=
  match v with VNone => true | _ => false end.

(** [v == s] for a string literal [s]. *)
Definition eq_str (v : value) (s : string) : bool :=
  match v with VStr t => String.eqb t s | _ => false end.

(** A value used as an integer ([bool] is a subclass of [int]). *)
Definition as_int (v : value) : option Z :=
  match v with
  | VInt z => Some z
  | VBool b => Some (if b then 1 else 0)
  | _ => None
  end.

(** A value used as a string. *)
Definition as_str (v : value) : option string :=
  match v with VStr s => Some s | _ => None end.

Definition digit_char (d : N) : Ascii.ascii := Ascii.ascii_of_N (48 + d).

(** Decimal digits of [n], most significant first, in front of [acc]. *)
Fixpoint str_digits (fuel : nat) (n : N) (acc : string) : string :=
  match fuel with
  | O => acc
  | S fuel' =>
      let acc' := String (digit_char (n mod 10)) acc in
      if (n <? 10)%N then acc' else str_digits fuel' (n / 10) acc'
  end.

(** A number below [2^k] has at most [k] decimal digits. *)
Definition digit_fuel (n : N) : nat := S (N.to_nat (N.log2 n)).

Definition str_N (n : N) : string := str_digits (digit_fuel n) n "".

(** [str(z)] for an [int]. *)
Definition str (z : Z) : string :=
  if z <? 0 then String "-"%char (str_N (Z.to_N (- z))) else str_N (Z.to_N z).

Fixpoint zeros (k : nat) : string :=
  match k with O => "" | S k' => String "0"%char (zeros k') end.

(** [s.zfill(width)]: zeros on the left up to [width] characters, after a
    leading sign if there is one; [s] itself when it is long enough. *)
Definition zfill (width : Z) (s : string) : string :=
  let fill := Z.to_nat (width - Z.of_nat (String.length s)) in
  match s with
  | String c s' =>
      if Ascii.eqb c "-"%char || Ascii.eqb c "+"%char then String c (zeros fill +:+ s')
      else zeros fill +:+ s
  | EmptyString => zeros fill
  end.

(** The number of decimal digits of [n] ([1] for [0]). *)
Fixpoint ndigits_aux (fuel : nat) (n : N) : nat :=
  match fuel with
  | O => O
  | S fuel' => if (n <? 10)%N then 1%nat else S (ndigits_aux fuel' (n / 10))
  end.

Definition ndigits (n : N) : nat := ndigits_aux (digit_fuel n) n.

(** [int(np.floor(np.log10(count)) + 1)].

    [np.log10] of zero is minus infinity and of a negative number
    not-a-number, and [int] refuses both. For a positive count the result
    is its number of decimal digits; that is what the binary64 logarithm
    gives as long as it tells [10^k - 1] from [10^k], which it does below
    [10^14]. Larger counts and counts given as floats are left out of the
    model; [None] and strings are refused by [np.log10]. *)
Definition log10_width (count : value) : exn + Z :=
  match count with
  | VNone | VStr _ => inl TypeError
  | VFloat _ => inl NotModelled
  | VInt _ | VBool _ =>
      let c := default 0 (as_int count) in
      if c =? 0 then inl OverflowError
      else if c <? 0 then inl ValueError
      else if c <? 10 ^ 14 then inr (Z.of_nat (ndigits (Z.to_N c)))
      else inl NotModelled
  end.

(** [int(s)] on a string of decimal digits (used to read names back). *)
Definition digit_val (c : Ascii.ascii) : N := (Ascii.N_of_ascii c - 48)%N.

Fixpoint int_digits (acc : N) (s : string) : N :=
  match s with
  | EmptyString => acc
  | String c s' => int_digits (10 * acc + digit_val c) s'
  end.

End Py.

Export Py(value(..), exn(..)).

(** ** Arrays and NumPy masked arrays *)

Module Ma.

(** An n-dimensional array: its shape and its items in row-major order. *)
Record ndarray (A : Type) := Ndarray { shape : list nat; items : list A }.
Arguments Ndarray {A} _ _.
Arguments shape {A} _.
Arguments items {A} _.

(** A masked array ([np.ma]): an item whose mask entry is [true] is
    masked, that is, left out of statistics and drawn in the "bad" colour. *)
Record marray := MArray { ma_shape : list nat; ma_data : list float; ma_mask : list bool }.

Definition size_of (sh : list nat) : nat := foldr Nat.mul 1%nat sh.

(** [~a] on a boolean array. *)
Definition invert (a : ndarray bool) : ndarray bool :=
  Ndarray (shape a) (negb <$> items a).

(** [np.ma.masked_where(condition, a)] for plain arrays: [a] masked where
    [condition] holds; the shapes must agree. *)
Definition masked_where (condition : ndarray bool) (a : ndarray float) : exn + marray :=
  if decide (shape condition = shape a)
  then inr (MArray (shape a) (items a) (items condition))
  else inl IndexError.

(** The items that are not masked, in order. *)
Definition compressed (m : marray) : list float :=
  fst <$> List.filter (fun p : float * bool => negb (snd p)) (zip (ma_data m) (ma_mask m)).

(** [np.ma.median(m)] and [np.ma.std(m)] over the whole array: the
    statistics of the items that are not masked (not-a-number stands for
    the masked constant NumPy returns when there is none). *)
Definition median (m : marray) : float := Np.median (compressed m).
Definition std (m : marray) : float := Np.std (compressed m).

(** [m[n]]: the [n]-th entry along the first axis; a negative [n] counts
    from the end. *)
Definition getitem (m : marray) (n : Z) : exn + marray :=
  match ma_shape m with
  | [] => inl IndexError
  | d0 :: rest =>
      let idx := if n <? 0 then n + Z.of_nat d0 else n in
      if (0 <=? idx) && (idx <? Z.of_nat d0) then
        let fs := size_of rest in
        let start := (Z.to_nat idx * fs)%nat in
        inr (MArray rest (take fs (drop start (ma_data m)))
                         (take fs (drop start (ma_mask m))))
      else inl IndexError
  end.

(** The items at position [j] of every entry along the first axis, each
    with its mask entry. *)
Definition column (d0 fs : nat) (m : marray) (j : nat) : list (float * bool) :=
  omap (fun n => zip (ma_data m) (ma_mask m) !! (n * fs + j)%nat) (seq 0 d0).

(** [np.ma.median(m, axis=0)]: for every position the median of the items
    along the first axis that are not masked; the position is masked in
    the result when all of them are. *)
Definition median_axis0 (m : marray) : exn + marray :=
  match ma_shape m with
  | [] => inl IndexError
  | d0 :: rest =>
      let fs := size_of rest in
      let cols := (fun j => fst <$> List.filter (fun p : float * bool => negb (snd p))
                                                (column d0 fs m j)) <$> seq 0 fs in
      inr (MArray rest (Np.median <$> cols)
                       ((fun c => bool_decide (c = [])) <$> cols))
  end.

End Ma.

(** ** [eureka/S3_data_reduction/plots_s3.py] *)

Module PlotsS3.

(** What a routine does to the outside, in order. [Plt] is a call into the
    plotting library that only changes the current figure; its arguments
    are kept where properties are stated about them ([ImshowSpec],
    [Imshow]). The file a [Savefig] writes replaces any file of the same
    path. *)
Inductive event :=
| Print (msg : string)
| Writelog (msg : string) (mute : bool)
| Figure (num : Z)
| Clf
| Plt (call : string)
| ImshowSpec (swapaxes : bool) (n_int vmin vmax : value)
| Imshow (frame : Ma.marray) (vmin vmax : float)
| Savefig (path : string)
| Pause (secs : float).

(** The fields of the Xarray dataset that the routines compute with; the
    others are only handed to the plotting library. [mask] is [true] on a
    good pixel. *)
Record dataset := Dataset {
  intstart : Z;
  mask : Ma.ndarray bool;
  flux : Ma.ndarray float;
  bg : Ma.ndarray float
}.

(** A routine runs on the metadata object (attribute name to value) and
    ends with a value or an exception, the metadata as it left it, and the
    events it caused. *)
Record outcome (A : Type) := Outcome {
  result : exn + A;
  meta_after : gmap string value;
  trace : list event
}.
Arguments Outcome {A} _ _ _.
Arguments result {A} _.
Arguments meta_after {A} _.
Arguments trace {A} _.

Definition M (A : Type) : Type := gmap string value -> outcome A.

Definition ret {A} (a : A) : M A := fun meta => Outcome (inr a) meta [].

Definition bind {A B} (c : M A) (k : A -> M B) : M B := fun meta =>
  let o := c meta in
  match result o with
  | inl e => Outcome (inl e) (meta_after o) (trace o)
  | inr a =>
      let o' := k a (meta_after o) in
      Outcome (result o') (meta_after o') (trace o ++ trace o')
  end.

#[global] Instance M_ret : MRet M := @ret.
#[global] Instance M_bind : MBind M := fun A B k c => bind c k.
#[global] Instance M_fmap : FMap M := fun A B f c => bind c (fun a => ret (f a)).

Definition raise {A} (e : exn) : M A := fun meta => Outcome (inl e) meta [].
Definition lift {A} (r : exn + A) : M A := fun meta => Outcome r meta [].
Definition emit (e : event) : M unit := fun meta => Outcome (inr tt) meta [e].

(** [hasattr(meta, name)], [meta.name] and [meta.name = v]. *)
Definition hasattr (name : string) : M bool := fun meta =>
  Outcome (inr (match meta !! name with Some _ => true | None => false end)) meta [].
Definition getattr (name : string) : M value := fun meta =>
  Outcome (match meta !! name with Some v => inr v | None => inl (AttributeError name) end)
          meta [].
Definition setattr (name : string) (v : value) : M unit := fun meta =>
  Outcome (inr tt) (<[name := v]> meta) [].

(** [a or b], with [b] evaluated only when [a] is false. *)
Definition orM (a b : M bool) : M bool :=
  x ← a; if x : bool then mret true else b.

Definition when (c : bool) (body : M unit) : M unit :=
  if c then body else mret tt.

(** [for n in range(k): body(n)] *)
Definition for_range (k : Z) (body : Z -> M unit) : M unit :=
  foldr (fun n rest => body n ;; rest) (mret tt) (seqZ 0 k).

(** [meta.name] used as an [int]. *)
Definition getattr_int (name : string) : M Z :=
  v ← getattr name;
  match Py.as_int v with Some z => mret z | None => raise TypeError end.

(** [meta.outputdir + fname] *)
Definition outputdir_plus (fname : string) : M string :=
  d ← getattr "outputdir";
  match d with VStr s => mret (s +:+ fname) | _ => raise TypeError end.

(** [str(k).zfill(int(np.floor(np.log10(meta.name)) + 1))] *)
Definition padded (k : Z) (name : string) : M string :=
  count ← getattr name;
  w ← lift (Py.log10_width count);
  mret (Py.zfill w (Py.str k)).

(** [if not meta.hide_plots: plt.pause(secs)] *)
Definition pause_unless_hidden (secs : float) : M unit :=
  hide ← getattr "hide_plots";
  when (negb (Py.truthy hide)) (emit (Pause secs)).

Section Routines.

(** [os.sep], and [figure_filetype] of [eureka/lib/plots.py], which is not
    among the sources. *)
Variable os_sep : string.
Variable figure_filetype : string.

(** Fig 3101. [util.normalize_spectrum], [np.ma.min] and [np.ma.max] are
    computations of other modules on the arrays; they are taken to return
    and leave the metadata alone. *)
Definition lc_nodriftcorr : M unit :=
  c ← orM (negb <$> hasattr "vmin") (Py.is_none <$> getattr "vmin");
  when c (setattr "vmin" (VFloat 0.97)) ;;
  c ← orM (negb <$> hasattr "vmax") (Py.is_none <$> getattr "vmin");
  when c (setattr "vmax" (VFloat 1.03)) ;;
  c ← orM (negb <$> hasattr "time_axis") (Py.is_none <$> getattr "time_axis");
  (if c : bool then setattr "time_axis" (VStr "y")
   else
     t ← getattr "time_axis";
     when (negb (Py.eq_str t "y" || Py.eq_str t "x"))
       (emit (Print "WARNING: meta.time_axis is not one of ['y', 'x']! Using 'y' by default.") ;;
        setattr "time_axis" (VStr "y"))) ;;
  emit (Figure 3101) ;;
  emit Clf ;;
  t ← getattr "time_axis";
  (if Py.eq_str t "y" then
     n_int ← getattr "n_int"; vmin ← getattr "vmin"; vmax ← getattr "vmax";
     emit (ImshowSpec false n_int vmin vmax) ;;
     emit (Plt "ylabel") ;; emit (Plt "xlabel")
   else
     n_int ← getattr "n_int"; vmin ← getattr "vmin"; vmax ← getattr "vmax";
     emit (ImshowSpec true n_int vmin vmax) ;;
     emit (Plt "ylabel") ;; emit (Plt "xlabel")) ;;
  mad ← getattr "mad_s3";
  match mad with
  | VNone | VStr _ => raise TypeError
  | _ => emit (Plt "title")
  end ;;
  emit (Plt "colorbar") ;;
  emit (Plt "tight_layout") ;;
  let fname := "figs" +:+ os_sep +:+ "fig3101-2D_LC" +:+ figure_filetype in
  path ← outputdir_plus fname;
  emit (Savefig path) ;;
  pause_unless_hidden 0.2.

(** Figs 3301: one figure per integration of the file. [range] takes the
    difference of two integers only. *)
Definition image_and_background (data : dataset) (m : Z) : M unit :=
  verbose ← getattr "verbose";
  emit (Writelog "  Creating figures for background subtraction..."
                 (negb (Py.truthy verbose))) ;;
  subdata ← lift (Ma.masked_where (Ma.invert (mask data)) (flux data));
  subbg ← lift (Ma.masked_where (Ma.invert (mask data)) (bg data));
  let vmin := (-200)%float in
  let vmax := 1000%float in
  let median := Ma.median subbg in
  let std := Ma.std subbg in
  int_end ← getattr "int_end";
  int_start ← getattr "int_start";
  count ← match Py.as_int int_end, Py.as_int int_start with
          | Some e, Some s => mret (e - s)
          | _, _ => raise TypeError
          end;
  _ ← getattr "verbose";
  for_range count (fun n =>
    emit (Figure 3301) ;;
    emit Clf ;;
    emit (Plt "suptitle") ;;
    emit (Plt "subplot") ;;
    emit (Plt "title") ;;
    frame ← lift (Ma.getitem subdata n);
    emit (Imshow frame vmin vmax) ;;
    emit (Plt "colorbar") ;;
    emit (Plt "ylabel") ;;
    emit (Plt "subplot") ;;
    emit (Plt "title") ;;
    frame_bg ← lift (Ma.getitem subbg n);
    emit (Imshow frame_bg (median - 3 * std)%float (median + 3 * std)%float) ;;
    emit (Plt "colorbar") ;;
    emit (Plt "ylabel") ;;
    emit (Plt "xlabel") ;;
    emit (Plt "tight_layout") ;;
    file_number ← padded m "num_data_files";
    int_number ← padded n "n_int";
    let fname := "figs" +:+ os_sep +:+ "fig3301_file" +:+ file_number +:+ "_int"
                 +:+ int_number +:+ "_ImageAndBackground" +:+ figure_filetype in
    path ← outputdir_plus fname;
    emit (Savefig path) ;;
    pause_unless_hidden 0.2).

(** Fig 3105. *)
Definition drift_2D : M unit :=
  emit (Figure 3105) ;;
  emit Clf ;;
  emit (Plt "subplot") ;;
  emit (Plt "plot") ;; emit (Plt "plot") ;;
  emit (Plt "ylabel") ;;
  emit (Plt "subplot") ;;
  emit (Plt "plot") ;; emit (Plt "plot") ;;
  emit (Plt "ylabel") ;;
  emit (Plt "xlabel") ;;
  emit (Plt "tight_layout") ;;
  let fname := "figs" +:+ os_sep +:+ "fig3105_Drift2D" +:+ figure_filetype in
  path ← outputdir_plus fname;
  emit (Savefig path) ;;
  pause_unless_hidden 0.2.

(** Figs 3302. *)
Definition optimal_spectrum (n m : Z) : M unit :=
  emit (Figure 3302) ;;
  emit Clf ;;
  emit (Plt "suptitle") ;;
  emit (Plt "semilogy") ;;
  emit (Plt "errorbar") ;;
  emit (Plt "ylabel") ;;
  emit (Plt "xlabel") ;;
  emit (Plt "legend") ;;
  emit (Plt "tight_layout") ;;
  file_number ← padded m "num_data_files";
  int_number ← padded n "n_int";
  let fname := "figs" +:+ os_sep +:+ "fig3302_file" +:+ file_number +:+ "_int"
               +:+ int_number +:+ "_Spectrum" +:+ figure_filetype in
  path ← outputdir_plus fname;
  emit (Savefig path) ;;
  pause_unless_hidden 0.2.

(** Figs 3102. *)
Definition source_position (m n : Z) (isgauss isFWM : bool) : M unit :=
  emit (Figure 3102) ;;
  emit Clf ;;
  emit (Plt "plot") ;;
  (if isgauss then
     emit (Plt "plot") ;;
     emit (Plt "axvline") ;;
     _ ← getattr "spec_hw";
     emit (Plt "xlim")
   else when isFWM (emit (Plt "axvline"))) ;;
  emit (Plt "axvline") ;;
  emit (Plt "ylabel") ;;
  emit (Plt "xlabel") ;;
  emit (Plt "legend") ;;
  emit (Plt "tight_layout") ;;
  file_number ← padded m "num_data_files";
  int_number ← padded n "n_int";
  let fname := "figs" +:+ os_sep +:+ "fig3102_file" +:+ file_number +:+ "_int"
               +:+ int_number +:+ "_source_pos" +:+ figure_filetype in
  path ← outputdir_plus fname;
  emit (Savefig path) ;;
  pause_unless_hidden 0.2.

(** Figs 3303. *)
Definition profile (n m : Z) : M unit :=
  emit (Figure 3303) ;;
  emit Clf ;;
  emit (Plt "suptitle") ;;
  emit (Plt "imshow") ;;
  emit (Plt "ylabel") ;;
  emit (Plt "xlabel") ;;
  emit (Plt "tight_layout") ;;
  file_number ← padded m "num_data_files";
  int_number ← padded n "n_int";
  let fname := "figs" +:+ os_sep +:+ "fig3303_file" +:+ file_number +:+ "_int"
               +:+ int_number +:+ "_Profile" +:+ figure_filetype in
  path ← outputdir_plus fname;
  emit (Savefig path) ;;
  pause_unless_hidden 0.2.

(** Figs 3501. [subdata_shape] is [subdata.shape], which the routine
    unpacks into [ny, nx]; column [i] must exist. *)
Definition subdata (i n m : Z) (subdata_shape : list nat) : M unit :=
  nx ← match subdata_shape with
       | [_; nx] => mret (Z.of_nat nx)
       | _ => raise ValueError
       end;
  emit (Figure 3501) ;;
  emit Clf ;;
  emit (Plt "suptitle") ;;
  (if (- nx <=? i) && (i <? nx) then mret tt else raise IndexError) ;;
  emit (Plt "plot") ;;
  emit (Plt "plot") ;;
  emit (Plt "plot") ;;
  file_number ← padded m "num_data_files";
  int_number ← padded n "n_int";
  w ← lift (Py.log10_width (VInt nx));
  let col_number := Py.zfill w (Py.str i) in
  let fname := "figs" +:+ os_sep +:+ "fig3501_file" +:+ file_number +:+ "_int"
               +:+ int_number +:+ "_col" +:+ col_number +:+ "_subdata"
               +:+ figure_filetype in
  path ← outputdir_plus fname;
  emit (Savefig path) ;;
  pause_unless_hidden 0.1.

(** Fig 3103. *)
Definition driftypos : M unit :=
  emit (Figure 3103) ;;
  emit Clf ;;
  _ ← getattr "n_int";
  emit (Plt "plot") ;;
  emit (Plt "ylabel") ;;
  emit (Plt "xlabel") ;;
  emit (Plt "tight_layout") ;;
  let fname := "figs" +:+ os_sep +:+ "fig3103_DriftYPos" +:+ figure_filetype in
  path ← outputdir_plus fname;
  emit (Savefig path) ;;
  pause_unless_hidden 0.2.

(** Fig 3104. *)
Definition driftywidth : M unit :=
  emit (Figure 3104) ;;
  emit Clf ;;
  _ ← getattr "n_int";
  emit (Plt "plot") ;;
  emit (Plt "ylabel") ;;
  emit (Plt "xlabel") ;;
  emit (Plt "tight_layout") ;;
  let fname := "figs" +:+ os_sep +:+ "fig3104_DriftYWidth" +:+ figure_filetype in
  path ← outputdir_plus fname;
  emit (Savefig path) ;;
  pause_unless_hidden 0.2.

(** Fig 3304. The cubic interpolation of the vertical slice
    ([scipy.interpolate]) is taken to return. *)
Definition residualBackground (data : dataset) (m : Z) (vmin vmax : float) : M unit :=
  subdata ← lift (Ma.masked_where (Ma.invert (mask data)) (flux data));
  flux ← lift (Ma.median_axis0 subdata);
  _ ← getattr_int "subnx";
  emit (Figure 3304) ;;
  emit Clf ;;
  emit (Plt "subplots") ;;
  emit (Imshow flux vmin vmax) ;;
  _ ← getattr "bg_y1"; _ ← getattr "bg_y2";
  emit (Plt "hlines") ;;
  _ ← getattr "src_ypos"; _ ← getattr "spec_hw";
  emit (Plt "hlines") ;;
  emit (Plt "set_ylabel") ;;
  emit (Plt "set_xlabel") ;;
  emit (Plt "scatter") ;;
  emit (Plt "vlines") ;;
  _ ← getattr "bg_hw";
  emit (Plt "hlines") ;;
  emit (Plt "hlines") ;;
  emit (Plt "legend") ;;
  emit (Plt "set_xlabel") ;;
  emit (Plt "set_xlim") ;;
  emit (Plt "set_ylim") ;;
  emit (Plt "set_yticklabels") ;;
  emit (Plt "set_xticks") ;;
  emit (Plt "colorbar") ;;
  emit (Plt "subplots_adjust") ;;
  file_number ← padded m "num_data_files";
  let fname := "figs" +:+ os_sep +:+ "fig3304_file" +:+ file_number
               +:+ "_ResidualBG" +:+ figure_filetype in
  path ← outputdir_plus fname;
  emit (Savefig path) ;;
  pause_unless_hidden 0.1.

(** Fig 3106. *)
Definition curvature : M unit :=
  emit (Figure 3106) ;;
  emit Clf ;;
  emit (Plt "title") ;;
  emit (Plt "plot") ;; emit (Plt "plot") ;; emit (Plt "plot") ;;
  emit (Plt "legend") ;;
  emit (Plt "ylabel") ;;
  emit (Plt "xlabel") ;;
  emit (Plt "tight_layout") ;;
  let fname := "figs" +:+ os_sep +:+ "fig3106_Curvature" +:+ figure_filetype in
  path ← outputdir_plus fname;
  emit (Savefig path) ;;
  pause_unless_hidden 0.1.

(** Fig 3401. *)
Definition median_frame : M unit :=
  emit (Figure 3401) ;;
  emit Clf ;;
  emit (Plt "title") ;;
  emit (Plt "imshow") ;;
  emit (Plt "ylabel") ;;
  emit (Plt "xlabel") ;;
  emit (Plt "tight_layout") ;;
  let fname := "figs" +:+ os_sep +:+ "fig3401_MedianFrame" +:+ figure_filetype in
  path ← outputdir_plus fname;
  emit (Savefig path) ;;
  pause_unless_hidden 0.1.

(** An invocation of one of the module's routines. *)
Inductive call :=
| LcNodriftcorr
| ImageAndBackground (data : dataset) (m : Z)
| Drift2D
| OptimalSpectrum (n m : Z)
| SourcePosition (m n : Z) (isgauss isFWM : bool)
| Profile (n m : Z)
| Subdata (i n m : Z) (subdata_shape : list nat)
| Driftypos
| Driftywidth
| ResidualBackground (data : dataset) (m : Z) (vmin vmax : float)
| Curvature
| MedianFrame.

Definition run (c : call) : M unit :=
  match c with
  | LcNodriftcorr => lc_nodriftcorr
  | ImageAndBackground data m => image_and_background data m
  | Drift2D => drift_2D
  | OptimalSpectrum n m => optimal_spectrum n m
  | SourcePosition m n isgauss isFWM => source_position m n isgauss isFWM
  | Profile n m => profile n m
  | Subdata i n m sh => subdata i n m sh
  | Driftypos => driftypos
  | Driftywidth => driftywidth
  | ResidualBackground data m vmin vmax => residualBackground data m vmin vmax
  | Curvature => curvature
  | MedianFrame => median_frame
  end.

(** The number each routine passes to [plt.figure]. *)
Definition figure_number (c : call) : Z :=
  match c with
  | LcNodriftcorr => 3101
  | ImageAndBackground _ _ => 3301
  | Drift2D => 3105
  | OptimalSpectrum _ _ => 3302
  | SourcePosition _ _ _ _ => 3102
  | Profile _ _ => 3303
  | Subdata _ _ _ _ => 3501
  | Driftypos => 3103
  | Driftywidth => 3104
  | ResidualBackground _ _ _ _ => 3304
  | Curvature => 3106
  | MedianFrame => 3401
  end.

End Routines.

End PlotsS3.

(** ** What is read off a trace *)

Module Trace.

Import PlotsS3.

(** The paths written, in order. *)
Definition saves (t : list event) : list string :=
  omap (fun e => match e with Savefig p => Some p | _ => None end) t.

Definition pauses (t : list event) : list float :=
  omap (fun e => match e with Pause s => Some s | _ => None end) t.

Definition prints (t : list event) : list string :=
  omap (fun e => match e with Print s => Some s | _ => None end) t.

Definition figures (t : list event) : list Z :=
  omap (fun e => match e with Figure n => Some n | _ => None end) t.

(** The masked frames drawn with [imshow], with their colour bounds. *)
Definition imshows (t : list event) : list (Ma.marray * float * float) :=
  omap (fun e => match e with Imshow f lo hi => Some (f, lo, hi) | _ => None end) t.

(** Every pause comes directly after a [savefig]; [after_save] says
    whether the event before the trace was one. *)
Fixpoint pauses_follow_saves (after_save : bool) (t : list event) : bool :=
  match t with
  | [] => true
  | Pause _ :: t' => after_save && pauses_follow_saves false t'
  | Savefig _ :: t' => pauses_follow_saves true t'
  | _ :: t' => pauses_follow_saves false t'
  end.

(** The files of the output directory after the trace: a [savefig] on an
    existing path replaces the file. *)
Definition files_after (files : gset string) (t : list event) : gset string :=
  files ∪ list_to_set (saves t).

(** The outcome of a computation on [meta], handed to [Q]. *)
Definition wp {A} (c : M A) (meta : gmap string value)
    (Q : exn + A -> gmap string value -> list event -> Prop) : Prop :=
  Q (result (c meta)) (meta_after (c meta)) (trace (c meta)).

(** The runs of a loop over [l] whose body leaves the metadata alone:
    [Body n] describes the run of the body at [n]; the loop stops at the
    first exception. *)
Inductive loop_trace (Body : Z -> exn + unit -> list event -> Prop)
  : list Z -> exn + unit -> list event -> Prop :=
| loop_done : loop_trace Body [] (inr tt) []
| loop_raise n l e t :
    Body n (inl e) t -> loop_trace Body (n :: l) (inl e) t
| loop_next n l t r t' :
    Body n (inr tt) t -> loop_trace Body l r t' ->
    loop_trace Body (n :: l) r (t ++ t').

(** What lines 35 to 44 of [lc_nodriftcorr] leave in the metadata, in
    closed form, and whether they print the warning. *)
Definition absent_or_none (o : option value) : bool :=
  match o with None => true | Some v => Py.is_none v end.

Definition default_vmin (meta : gmap string value) : gmap string value :=
  if absent_or_none (meta !! "vmin") then <["vmin" := VFloat 0.97]> meta else meta.

Definition default_vmax (meta : gmap string value) : gmap string value :=
  match meta !! "vmax" with
  | None => <["vmax" := VFloat 1.03]> meta
  | Some _ => meta
  end.

Definition valid_time_axis (t : value) : bool := Py.eq_str t "y" || Py.eq_str t "x".

Definition default_time_axis (meta : gmap string value) : gmap string value :=
  match meta !! "time_axis" with
  | Some t =>
      if Py.is_none t || negb (valid_time_axis t)
      then <["time_axis" := VStr "y"]> meta else meta
  | None => <["time_axis" := VStr "y"]> meta
  end.

Definition lc_defaults (meta : gmap string value) : gmap string value :=
  default_time_axis (default_vmax (default_vmin meta)).

Definition lc_warns (meta : gmap string value) : bool :=
  match meta !! "time_axis" with
  | Some t => negb (Py.is_none t) && negb (valid_time_axis t)
  | None => false
  end.

Definition time_axis_warning : string :=
  "WARNING: meta.time_axis is not one of ['y', 'x']! Using 'y' by default.".

(** The attributes the rest of [lc_nodriftcorr] needs in order to return. *)
Definition lc_ready (meta : gmap string value) : Prop :=
  is_Some (meta !! "n_int") /\
  (exists v, meta !! "mad_s3" = Some v /\ Py.is_none v = false /\ Py.as_str v = None) /\
  (exists d, meta !! "outputdir" = Some (VStr d)) /\
  is_Some (meta !! "hide_plots").

End Trace.

(** ** The naming pattern of the specification

    [<output_dir>/figs/fig<NNNN>[_file<F>][_int<I>][_col<C>]_<Label><ext>] *)

Module Naming.

Record fig_name := FigName {
  tag : string;
  file_index : option string;
  int_index : option string;
  col_index : option string;
  label : string
}.

Definition component (key : string) (index : option string) : string :=
  match index with
  | Some s => "_" +:+ key +:+ s
  | None => ""
  end.

Definition is_digit (c : ascii) : bool :=
  (48 <=? N_of_ascii c)%N && (N_of_ascii c <=? 57)%N.

Fixpoint all_digits (s : string) : bool :=
  match s with
  | EmptyString => true
  | String c s' => is_digit c && all_digits s'
  end.

(** A zero-padded rendering of an integer. *)
Definition zero_padded (s : string) : Prop :=
  exists (w k : Z), s = Py.zfill w (Py.str k).

Definition index_ok (index : option string) : Prop :=
  match index with
  | Some s => zero_padded s
  | None => True
  end.

Definition well_formed (f : fig_name) : Prop :=
  String.length (tag f) = 4%nat /\ all_digits (tag f) = true /\
  index_ok (file_index f) /\ index_ok (int_index f) /\ index_ok (col_index f) /\
  label f <> "".

Section Pattern.

Variable os_sep : string.
Variable figure_filetype : string.



(** The path as the routines build it: [meta.outputdir] and the file name
    are concatenated as they are. *)
Definition code_path (outputdir : string) (f : fig_name) : string :=
  outputdir +:+ "figs" +:+ os_sep +:+ "fig" +:+ tag f
  +:+ component "file" (file_index f)
  +:+ component "int" (int_index f)
  +:+ component "col" (col_index f)
  +:+ "_" +:+ label f +:+ figure_filetype.

(** [str(k).zfill(...)] as a function of the count attribute alone. *)
Definition padded_of (k : Z) (count : option value) : option string :=
  match count with
  | Some v =>
      match Py.log10_width v with
      | inr w => Some (Py.zfill w (Py.str k))
      | inl _ => None
      end
  | None => None
  end.

(** The figure name of an invocation, for the routines whose file name has
    the shape of the pattern, as a function of the indices and of the two
    count attributes. *)
Definition fig_name_of (c : PlotsS3.call) (num_data_files n_int : option value)
  : option fig_name :=
  match c with
  | PlotsS3.LcNodriftcorr => None
  | PlotsS3.ImageAndBackground _ _ => None
  | PlotsS3.Drift2D => Some (FigName "3105" None None None "Drift2D")
  | PlotsS3.OptimalSpectrum n m =>
      F ← padded_of m num_data_files; I ← padded_of n n_int;
      Some (FigName "3302" (Some F) (Some I) None "Spectrum")
  | PlotsS3.SourcePosition m n _ _ =>
      F ← padded_of m num_data_files; I ← padded_of n n_int;
      Some (FigName "3102" (Some F) (Some I) None "source_pos")
  | PlotsS3.Profile n m =>
      F ← padded_of m num_data_files; I ← padded_of n n_int;
      Some (FigName "3303" (Some F) (Some I) None "Profile")
  | PlotsS3.Subdata i n m sh =>
      F ← padded_of m num_data_files; I ← padded_of n n_int;
      C ← padded_of i (VInt <$> (Z.of_nat <$> sh !! 1%nat));
      Some (FigName "3501" (Some F) (Some I) (Some C) "subdata")
  | PlotsS3.Driftypos => Some (FigName "3103" None None None "DriftYPos")
  | PlotsS3.Driftywidth => Some (FigName "3104" None None None "DriftYWidth")
  | PlotsS3.ResidualBackground _ m _ _ =>
      F ← padded_of m num_data_files;
      Some (FigName "3304" (Some F) None None "ResidualBG")
  | PlotsS3.Curvature => Some (FigName "3106" None None None "Curvature")
  | PlotsS3.MedianFrame => Some (FigName "3401" None None None "MedianFrame")
  end.

(** The figure name of integration [n] of [image_and_background]. *)
Definition fig_name_3301 (m n : Z) (num_data_files n_int : option value)
  : option fig_name :=
  F ← padded_of m num_data_files; I ← padded_of n n_int;
  Some (FigName "3301" (Some F) (Some I) None "ImageAndBackground").

(** The paths an invocation writes when it returns, as a function of the
    invocation and of the five attributes the names are built from. *)
Definition paths_of (c : PlotsS3.call)
    (outputdir num_data_files n_int int_start int_end : option value)
  : option (list string) :=
  let dir := outputdir ≫= Py.as_str in
  match c with
  | PlotsS3.LcNodriftcorr =>
      d ← dir;
      Some [d +:+ "figs" +:+ os_sep +:+ "fig3101-2D_LC" +:+ figure_filetype]
  | PlotsS3.ImageAndBackground _ m =>
      e ← int_end ≫= Py.as_int; s ← int_start ≫= Py.as_int;
      mapM (fun n => d ← dir; code_path d <$> fig_name_3301 m n num_data_files n_int)
           (seqZ 0 (e - s))
  | _ => d ← dir; f ← fig_name_of c num_data_files n_int; Some [code_path d f]
  end.

(** The two masked arrays of [image_and_background] and
    [residualBackground], in closed form: the flux and the background,
    masked where [data.mask] is false. *)
Definition subdata_of (data : PlotsS3.dataset) : Ma.marray :=
  Ma.MArray (Ma.shape (PlotsS3.flux data)) (Ma.items (PlotsS3.flux data))
            (negb <$> Ma.items (PlotsS3.mask data)).

Definition subbg_of (data : PlotsS3.dataset) : Ma.marray :=
  Ma.MArray (Ma.shape (PlotsS3.bg data)) (Ma.items (PlotsS3.bg data))
            (negb <$> Ma.items (PlotsS3.mask data)).

(** A frame drawn for integration [n] by [image_and_background]: the
    [n]-th frame of the masked flux between the fixed bounds, or the [n]-th
    frame of the masked background between its median minus and plus
    three standard deviations. *)
Definition shown_3301 (data : PlotsS3.dataset) (n : Z) (x : Ma.marray * float * float)
  : Prop :=
  let median := Ma.median (subbg_of data) in
  let std := Ma.std (subbg_of data) in
  (Ma.getitem (subdata_of data) n = inr (fst (fst x)) /\
   snd (fst x) = (-200)%float /\ snd x = 1000%float) \/
  (Ma.getitem (subbg_of data) n = inr (fst (fst x)) /\
   snd (fst x) = (median - 3 * std)%float /\ snd x = (median + 3 * std)%float).

(** The path of integration [n] of [image_and_background]. *)
Definition path_3301 (m : Z) (meta : gmap string value) (n : Z) : option string :=
  d ← meta !! "outputdir" ≫= Py.as_str;
  code_path d <$> fig_name_3301 m n (meta !! "num_data_files") (meta !! "n_int").

(** One turn of the loop of [image_and_background]. *)
Definition body_3301 (data : PlotsS3.dataset) (m : Z) (meta : gmap string value)
    (n : Z) (r : exn + unit) (t : list PlotsS3.event) : Prop :=
  Trace.pauses_follow_saves false t = true /\
  (forall h, meta !! "hide_plots" = Some h -> Py.truthy h = true -> Trace.pauses t = []) /\
  (r = inr tt -> exists p, path_3301 m meta n = Some p /\ Trace.saves t = [p]) /\
  Forall (shown_3301 data n) (Trace.imshows t) /\
  Forall (fun k => k = 3301) (Trace.figures t).

(** Two metadata objects with the same five attributes behind [paths_of]. *)
Definition same_naming (meta meta' : gmap string value) : Prop :=
  meta' !! "outputdir" = meta !! "outputdir" /\
  meta' !! "num_data_files" = meta !! "num_data_files" /\
  meta' !! "n_int" = meta !! "n_int" /\
  meta' !! "int_start" = meta !! "int_start" /\
  meta' !! "int_end" = meta !! "int_end".

(** [paths_of] read off the metadata. *)
Definition paths (c : PlotsS3.call) (meta : gmap string value) : option (list string) :=
  paths_of c (meta !! "outputdir") (meta !! "num_data_files") (meta !! "n_int")
           (meta !! "int_start") (meta !! "int_end").

(** What every run of a routine satisfies, whether it returns or raises:
    a pause comes directly after a [savefig], there is none when
    [meta.hide_plots] is true, a run that returns has written the paths of
    [paths], and the run leaves alone the attributes that the paths and the
    pause depend on (only [lc_nodriftcorr] changes the metadata at all);
    the only figure it selects is the one of its number. *)
Definition summary (c : PlotsS3.call) (meta : gmap string value)
    (r : exn + unit) (m : gmap string value) (t : list PlotsS3.event) : Prop :=
  Trace.pauses_follow_saves false t = true /\
  (forall h, meta !! "hide_plots" = Some h -> Py.truthy h = true -> Trace.pauses t = []) /\
  (r = inr tt -> paths c meta = Some (Trace.saves t)) /\
  paths c m = paths c meta /\
  m !! "hide_plots" = meta !! "hide_plots" /\
  (c <> PlotsS3.LcNodriftcorr -> m = meta) /\
  Forall (fun k => k = PlotsS3.figure_number c) (Trace.figures t).

End Pattern.

End Naming.

(** ** Good pixels *)

Module Masking.




End Masking.

(** ** Invocations and traces, further readings *)

Module Calls.

Import PlotsS3.

(** The file, integration and column numbers an invocation is given, in
    the order in which they appear in its file name ([image_and_background]
    takes the file number and runs over the integrations itself). *)
Definition indices (c : call) : list Z :=
  match c with
  | ImageAndBackground _ m => [m]
  | OptimalSpectrum n m => [m; n]
  | SourcePosition m n _ _ => [m; n]
  | Profile n m => [m; n]
  | Subdata i n m _ => [m; n; i]
  | ResidualBackground _ m _ _ => [m]
  | _ => []
  end.

End Calls.

(** ** The order of the calls into the plotting library *)

Module Session.

Import PlotsS3 Trace.

(** Where a routine stands: before its first figure, after [plt.figure],
    after [plt.clf] (drawing), after [plt.savefig], after [plt.pause]. *)
Inductive phase := Start | Selected | Drawing | Saved | Paused.

(** The events the routines may cause in each phase: messages before the
    first figure; [plt.figure(k)] at the start or once the previous figure
    is saved; [plt.clf] directly after it; drawing until [plt.savefig];
    [plt.pause] directly after [plt.savefig]. *)
Definition step (k : Z) (s : phase) (e : event) : option phase :=
  match e, s with
  | (Print _ | Writelog _ _), Start => Some Start
  | Figure n, (Start | Saved | Paused) => if n =? k then Some Selected else None
  | Clf, Selected => Some Drawing
  | (Plt _ | ImshowSpec _ _ _ _ | Imshow _ _ _), Drawing => Some Drawing
  | Savefig _, Drawing => Some Saved
  | Pause _, Saved => Some Paused
  | _, _ => None
  end.

Fixpoint follow (k : Z) (s : phase) (t : list event) : option phase :=
  match t with
  | [] => Some s
  | e :: t' => s' ← step k s e; follow k s' t'
  end.

(** No figure is left selected or drawn without having been saved. *)
Definition at_rest (s : phase) : bool :=
  match s with
  | Start | Saved | Paused => true
  | Selected | Drawing => false
  end.

(** The routines that make one figure. *)
Definition single (c : call) : bool :=
  match c with
  | ImageAndBackground _ _ => false
  | _ => true
  end.

(** The light-curve images drawn: orientation, extent and colour bounds. *)
Definition imshow_specs (t : list event) : list (bool * value * value * value) :=
  omap (fun e => match e with
                 | ImshowSpec sw n lo hi => Some (sw, n, lo, hi)
                 | _ => None
                 end) t.

(** What every run of a routine on [meta] satisfies besides
    [Naming.summary]: the order of its events, what it has saved when the
    output directory is unusable or when it raises, which attribute an
    [AttributeError] names, and the pauses of a run whose plots are shown. *)
Definition conduct (c : call) (meta : gmap string value)
    (r : exn + unit) (t : list event) : Prop :=
  (exists s, follow (figure_number c) Start t = Some s /\
             (r = inr tt -> at_rest s = true)) /\
  ((forall d, meta !! "outputdir" <> Some (VStr d)) -> saves t = []) /\
  (forall a, r = inl (AttributeError a) -> meta !! a = None) /\
  (r = inl (AttributeError "hide_plots") -> saves t <> []) /\
  (single c = true -> forall e, r = inl e -> e <> AttributeError "hide_plots" ->
     saves t = []) /\
  (forall h, meta !! "hide_plots" = Some h -> Py.truthy h = false ->
     length (pauses t) = length (saves t)).

(** One turn of the loop of [image_and_background], started at rest. *)
Definition turn_3301 (data : dataset) (meta : gmap string value)
    (n : Z) (r : exn + unit) (t : list event) : Prop :=
  (forall s, at_rest s = true ->
     exists s', follow 3301 s t = Some s' /\ (r = inr tt -> at_rest s' = true)) /\
  ((forall d, meta !! "outputdir" <> Some (VStr d)) -> saves t = []) /\
  (forall a, r = inl (AttributeError a) -> meta !! a = None) /\
  (r = inl (AttributeError "hide_plots") -> saves t <> []) /\
  (forall h, meta !! "hide_plots" = Some h -> Py.truthy h = false ->
     length (pauses t) = length (saves t)) /\
  (r = inr tt ->
     (exists f, Ma.getitem (Naming.subdata_of data) n = inr f) /\
     (exists f, Ma.getitem (Naming.subbg_of data) n = inr f)).

End Session.

(** ** Concrete inputs *)

Module Examples.

(** A run of one hundred files of one hundred integrations each, written
    under [out/], with interactive display. *)
Definition meta100 : gmap string value :=
  list_to_map
    [("outputdir", VStr "out/"); ("hide_plots", VBool false); ("verbose", VBool false);
     ("num_data_files", VInt 100); ("n_int", VInt 100);
     ("int_start", VInt 0); ("int_end", VInt 2);
     ("mad_s3", VFloat 150); ("subnx", VInt 20);
     ("bg_y1", VInt 2); ("bg_y2", VInt 12); ("src_ypos", VInt 7);
     ("spec_hw", VInt 3); ("bg_hw", VInt 5)].

(** The same run with one thousand files. *)
Definition meta1000 : gmap string value := <["num_data_files" := VInt 1000]> meta100.

(** The same run with the display suppressed. *)
Definition meta_hidden : gmap string value := <["hide_plots" := VBool true]> meta100.

(** [time_axis] and [vmax] present and [None], [vmin] a number. *)
Definition meta_none : gmap string value :=
  <["time_axis" := VNone]> (<["vmax" := VNone]> (<["vmin" := VFloat 0.9]> meta100)).


(** Two integrations of one row of two pixels; the second pixel of the
    first integration is flagged bad ([mask] false). *)
Definition data2 : PlotsS3.dataset :=
  PlotsS3.Dataset 5
    (Ma.Ndarray [2; 1; 2]%nat [true; false; true; true])
    (Ma.Ndarray [2; 1; 2]%nat [1; 2; 3; 4]%float)
    (Ma.Ndarray [2; 1; 2]%nat [10; 20; 30; 50]%float).

End Examples.

(** * Properties *)

(** ** [medstddev] against the repository's test *)

Section MedstddevFacts.

Import Medstddev TestGeneral.

Example medstddev_passes_the_test : test_medstddev medstddev = true.
Proof. vm_compute. reflexivity. Qed.

(** Under the reading "zero marks a good sample" the assertions of the
    test do not hold. *)
Example zero_good_fails_the_test : test_medstddev medstddev_zero_good = false.
Proof. vm_compute. reflexivity. Qed.

Lemma select_zip_with (keep : Z -> bool) (a : list float) (m : list Z) :
  select (zip_with (fun x k => keep k && Np.isfinite x) a m) a = good_samples keep a m.
Proof.
  unfold good_samples. revert m.
  induction a as [|x a IH]; intros [|k m]; simpl; try reflexivity.
  destruct (keep k && Np.isfinite x); simpl; rewrite IH; reflexivity.
Qed.

Lemma select_map_isfinite (a : list float) :
  select (map Np.isfinite a) a = List.filter Np.isfinite a.
Proof.
  induction a as [|x a IH]; simpl; [reflexivity|].
  destruct (Np.isfinite x); rewrite IH; reflexivity.
Qed.

Lemma good_flags_lookup (keep : Z -> bool) (a : list float) (m : list Z) (i : nat) :
  good_flags keep a (Some m) !! i = Some true <->
  exists x k, a !! i = Some x /\ m !! i = Some k /\ keep k = true /\ Np.isfinite x = true.
Proof.
  unfold good_flags. rewrite lookup_zip_with_Some. split.
  - intros (x & k & Hb & Hx & Hk). symmetry in Hb.
    apply andb_true_iff in Hb as [? ?]. eauto 6.
  - intros (x & k & Hx & Hk & H1 & H2). exists x, k.
    rewrite H1, H2. auto.
Qed.

Lemma stats_at_least_two (g : list float) :
  (2 <= length g)%nat ->
  stats g =
    (PrimFloat.sqrt
       (Np.fsum (map (fun x => ((x - Np.median g) * (x - Np.median g))%float) g)
        / (Np.of_nat (length g) - 1))%float,
     Np.median g).
Proof.
  destruct g as [|x [|y g]]; simpl length; intros H; try lia. reflexivity.
Qed.

(** With or without [medi], the standard deviation is the same. *)
Lemma medstddev_medi_std (a : list float) (mask : option (list Z)) (medi : bool) :
  match medstddev_medi a mask medi with
  | Std s => s
  | StdMed s _ => s
  end = fst (medstddev a mask).
Proof.
  unfold medstddev_medi. destruct (medstddev a mask) as [s m].
  destruct medi; reflexivity.
Qed.

Lemma float_pair_neq (p q : float * float) (f : float * float -> bool) :
  f p = true -> f q = false -> p <> q.
Proof. intros Hp Hq ->. congruence. Qed.

End MedstddevFacts.

(** C1, as the data model states it ("good iff the mask entry is
    false/zero and the value is finite"), does not hold: on the arrays of
    the test, [a = [1,3,4,5,6,7,7]] with [mask = [1,1,1,0,0,0,0]], the
    routine returns the median [3.0] that the test asserts, the median of
    the samples whose entry is one; the samples whose entry is zero have
    the median [6.5]. *)
Lemma C1_zero_marks_good_refuted :
  ~ (forall (a : list float) (mask : list Z),
        length mask = length a ->
        Medstddev.medstddev a (Some mask) =
        Medstddev.stats (Medstddev.good_samples (fun k => k =? 0) a mask)).
Proof.
  intros H.
  specialize (H TestGeneral.a1 TestGeneral.mask1 eq_refl).
  revert H.
  apply (float_pair_neq _ _ (fun p => PrimFloat.eqb (snd p) 3)); vm_compute; reflexivity.
Qed.

(** C1, amended: a sample contributes to the returned median and standard
    deviation if and only if its mask entry is non-zero and its value is
    finite. The flag computed for position [i] is set exactly then, and
    the result is the statistics of exactly those samples. *)
Theorem C1_good_iff_nonzero_mask_and_finite (a : list float) (mask : list Z) :
  length mask = length a ->
  (forall i : nat,
      Medstddev.good_flags (fun k => negb (k =? 0)) a (Some mask) !! i = Some true <->
      exists x k, a !! i = Some x /\ mask !! i = Some k /\ k <> 0 /\ Np.isfinite x = true)
  /\ Medstddev.medstddev a (Some mask) =
     Medstddev.stats (Medstddev.good_samples (fun k => negb (k =? 0)) a mask).
Proof.
  intros _. split.
  - intros i. rewrite good_flags_lookup. split.
    + intros (x & k & ? & ? & Hk & ?). exists x, k.
      apply negb_true_iff, Z.eqb_neq in Hk. auto.
    + intros (x & k & ? & ? & Hk & ?). exists x, k.
      apply Z.eqb_neq, negb_true_iff in Hk. auto.
  - unfold Medstddev.medstddev, Medstddev.medstddev_with, Medstddev.good_flags.
    rewrite select_zip_with. reflexivity.
Qed.

Lemma C1_witness :
  length TestGeneral.mask1 = length TestGeneral.a1 /\
  Medstddev.medstddev TestGeneral.a1 (Some TestGeneral.mask1) =
  Medstddev.stats [1; 3; 4]%float.
Proof.
  split; [reflexivity|].
  exact (proj2 (C1_good_iff_nonzero_mask_and_finite
                  TestGeneral.a1 TestGeneral.mask1 eq_refl)).
Defined.

(** C2: with at least two good values the routine returns the median of
    the good values and the square root of the sum of their squared
    deviations from that median over [n_good - 1]; without a mask the good
    values are the finite ones. [medstddev([NaN,1,4,Inf,6])] is
    [(2.5495097567963922, 4.0)], and [medstddev([1,3,4,5,6,7,7])] has the
    median [5.0] and a standard deviation within the test's tolerance of
    [2.2360679775]. *)
Theorem C2_std_about_the_median_of_good_values :
  (forall (a : list float) (mask : option (list Z)),
      (2 <= Medstddev.n_good a mask)%nat ->
      let g := Medstddev.good_values a mask in
      Medstddev.medstddev a mask =
        (PrimFloat.sqrt
           (Np.fsum (map (fun x => ((x - Np.median g) * (x - Np.median g))%float) g)
            / (Np.of_nat (Medstddev.n_good a mask) - 1))%float,
         Np.median g))
  /\ (forall a : list float, Medstddev.good_values a None = List.filter Np.isfinite a)
  /\ Medstddev.medstddev TestGeneral.a2 None = (2.5495097567963922, 4.0)%float
  /\ snd (Medstddev.medstddev TestGeneral.a1 None) = 5.0%float
  /\ Np.allclose (fst (Medstddev.medstddev TestGeneral.a1 None)) 2.2360679775 = true.
Proof.
  split; [|split; [|split; [|split]]].
  - intros a mask H g. apply stats_at_least_two. exact H.
  - intros a. apply select_map_isfinite.
  - vm_compute. reflexivity.
  - vm_compute. reflexivity.
  - vm_compute. reflexivity.
Qed.

Lemma C2_witness :
  (2 <= Medstddev.n_good TestGeneral.a2 None)%nat /\
  Medstddev.medstddev TestGeneral.a2 None =
    (PrimFloat.sqrt ((9 + 0 + 4) / (3 - 1)), 4)%float.
Proof.
  split; [vm_compute; lia|].
  exact (proj1 C2_std_about_the_median_of_good_values TestGeneral.a2 None
           ltac:(vm_compute; lia)).
Defined.

(** C3: the routine is a total function, so no input makes it fail. With
    no good value it returns not-a-number twice; with exactly one it
    returns the standard deviation [0.0] and that value as the median. *)
Theorem C3_degenerate_inputs_give_sentinels (a : list float) (mask : option (list Z)) :
  (Medstddev.n_good a mask = 0%nat ->
     Medstddev.medstddev a mask = (PrimFloat.nan, PrimFloat.nan))
  /\ (forall x : float,
        Medstddev.good_values a mask = [x] ->
        Medstddev.medstddev a mask = (0%float, x))
  /\ (Medstddev.n_good a mask = 1%nat ->
        exists x, Medstddev.good_values a mask = [x] /\
                  Medstddev.medstddev a mask = (0%float, x)).
Proof.
  unfold Medstddev.n_good, Medstddev.medstddev, Medstddev.medstddev_with.
  fold (Medstddev.good_values a mask).
  destruct (Medstddev.good_values a mask) as [|x [|y g]]; simpl;
    (split; [|split]); try discriminate; try reflexivity.
  - intros x' [= ->]. reflexivity.
  - intros _. exists x. split; reflexivity.
Qed.

Lemma C3_witness :
  Medstddev.medstddev TestGeneral.a3 (Some TestGeneral.mask3') = (PrimFloat.nan, PrimFloat.nan)
  /\ Medstddev.medstddev TestGeneral.a3 (Some TestGeneral.mask3) = (0, 6)%float.
Proof.
  split.
  - exact (proj1 (C3_degenerate_inputs_give_sentinels
                    TestGeneral.a3 (Some TestGeneral.mask3')) eq_refl).
  - exact (proj1 (proj2 (C3_degenerate_inputs_give_sentinels
                           TestGeneral.a3 (Some TestGeneral.mask3))) 6%float eq_refl).
Defined.

(** ** [str], [zfill] and the padding width *)

Section PyFacts.

Import Py.

Local Open Scope N_scope.

Lemma digit_fuel_spec (n : N) : n < 2 ^ N.of_nat (digit_fuel n).
Proof.
  unfold digit_fuel. rewrite Nat2N.inj_succ, N2Nat.id.
  destruct (N.eq_dec n 0) as [->|Hn]; [reflexivity|].
  apply N.log2_spec. lia.
Qed.

Lemma fuel_step (f : nat) (n : N) :
  n < 2 ^ N.of_nat (S f) -> n / 10 < 2 ^ N.of_nat f.
Proof.
  rewrite Nat2N.inj_succ, N.pow_succ_r'. intros H.
  apply N.Div0.div_lt_upper_bound. lia.
Qed.

(** With enough fuel, [ndigits_aux] is one more than the integer decimal
    logarithm: [10^k <= n < 10^(k+1)]. *)
Lemma ndigits_aux_spec (f : nat) (n : N) :
  n < 2 ^ N.of_nat f -> 0 < n ->
  exists k : nat, ndigits_aux f n = S k /\ 10 ^ N.of_nat k <= n < 10 ^ N.of_nat (S k).
Proof.
  revert n. induction f as [|f IH]; intros n Hf Hn.
  - simpl in Hf. lia.
  - simpl. destruct (N.ltb_spec n 10) as [Hlt|Hge].
    + exists 0%nat. split; [reflexivity|]. simpl. lia.
    + destruct (IH (n / 10)) as (k & Hk & Hlo & Hhi).
      * apply fuel_step, Hf.
      * apply N.div_str_pos. lia.
      * exists (S k). split; [rewrite Hk; reflexivity|].
        rewrite !Nat2N.inj_succ, !N.pow_succ_r' in *.
        pose proof (N.Div0.div_mod n 10) as Hdm.
        pose proof (N.mod_lt n 10 ltac:(lia)) as Hmod.
        clear IH Hf Hk.
        generalize dependent (10 ^ N.of_nat k).
        generalize dependent (n / 10). generalize dependent (n mod 10).
        intros. lia.
Qed.

Lemma ndigits_spec (n : N) :
  0 < n ->
  exists k : nat, ndigits n = S k /\ 10 ^ N.of_nat k <= n < 10 ^ N.of_nat (S k).
Proof. apply ndigits_aux_spec, digit_fuel_spec. Qed.

Lemma ndigits_pos (n : N) : (1 <= ndigits n)%nat.
Proof.
  unfold ndigits, digit_fuel. simpl. destruct (n <? 10); lia.
Qed.

Lemma ndigits_mono (m n : N) : m <= n -> (ndigits m <= ndigits n)%nat.
Proof.
  intros Hmn. destruct (N.eq_dec m 0) as [->|Hm].
  - change (ndigits 0) with 1%nat. apply ndigits_pos.
  - destruct (ndigits_spec m) as (km & -> & Hm1 & _); [lia|].
    destruct (ndigits_spec n) as (kn & -> & _ & Hn2); [lia|].
    assert (10 ^ N.of_nat km < 10 ^ N.of_nat (S kn)) as Hlt by lia.
    apply N.pow_lt_mono_r_iff in Hlt; lia.
Qed.

Lemma length_str_digits (f : nat) (n : N) (acc : string) :
  String.length (str_digits f n acc) = (ndigits_aux f n + String.length acc)%nat.
Proof.
  revert n acc. induction f as [|f IH]; intros n acc; simpl; [reflexivity|].
  destruct (n <? 10); simpl; [reflexivity|].
  rewrite IH. simpl. lia.
Qed.

Lemma length_str_N (n : N) : String.length (str_N n) = ndigits n.
Proof. unfold str_N, ndigits. rewrite length_str_digits. simpl. lia. Qed.

Lemma str_nonneg (z : Z) : (0 <= z)%Z -> str z = str_N (Z.to_N z).
Proof. intros H. unfold str. destruct (Z.ltb_spec z 0); [lia|reflexivity]. Qed.

Lemma string_app_cons (c : ascii) (s t : string) :
  String c s +:+ t = String c (s +:+ t).
Proof. reflexivity. Qed.

Lemma string_app_nil_l (t : string) : "" +:+ t = t.
Proof. reflexivity. Qed.

Lemma string_length_app (s t : string) :
  String.length (s +:+ t) = (String.length s + String.length t)%nat.
Proof.
  induction s as [|c s IH]; [reflexivity|].
  rewrite string_app_cons. simpl. rewrite IH. reflexivity.
Qed.

Lemma string_app_assoc (s t u : string) : (s +:+ t) +:+ u = s +:+ (t +:+ u).
Proof.
  induction s as [|c s IH]; [reflexivity|].
  rewrite !string_app_cons, IH. reflexivity.
Qed.

Lemma length_zeros (k : nat) : String.length (zeros k) = k.
Proof. induction k; simpl; congruence. Qed.

Lemma length_zfill (w : Z) (s : string) :
  String.length (zfill w s) = Nat.max (String.length s) (Z.to_nat w).
Proof.
  unfold zfill. destruct s as [|c s]; simpl String.length.
  - rewrite length_zeros. lia.
  - destruct (_ || _); rewrite ?string_app_cons; simpl String.length;
      rewrite string_length_app, length_zeros; simpl String.length; lia.
Qed.

(** Every index up to the count is rendered with as many characters as
    the count has digits. *)
Lemma length_zfill_str (count k : Z) :
  (0 < count)%Z -> (0 <= k <= count)%Z ->
  String.length (zfill (Z.of_nat (ndigits (Z.to_N count))) (str k))
  = ndigits (Z.to_N count).
Proof.
  intros Hc Hk. rewrite length_zfill, str_nonneg, length_str_N by lia.
  rewrite Nat2Z.id.
  pose proof (ndigits_mono (Z.to_N k) (Z.to_N count) ltac:(lia)). lia.
Qed.

Lemma log10_width_int (count : Z) :
  (0 < count < 10 ^ 14)%Z ->
  log10_width (VInt count) = inr (Z.of_nat (ndigits (Z.to_N count))).
Proof.
  intros [H1 H2]. unfold log10_width. simpl.
  destruct (Z.eqb_spec count 0); [lia|].
  destruct (Z.ltb_spec count 0); [lia|].
  destruct (Z.ltb_spec count (10 ^ 14)); [reflexivity|lia].
Qed.

End PyFacts.

(** ** Reasoning on runs *)

Section Logic.

Import PlotsS3 Trace Naming.

Lemma wp_bind {A B} (c : M A) (k : A -> M B) meta Q :
  wp c meta (fun r m t =>
    match r with
    | inl e => Q (inl e) m t
    | inr a => wp (k a) m (fun r' m' t' => Q r' m' (t ++ t'))
    end) ->
  wp (c ≫= k) meta Q.
Proof.
  unfold wp, mbind, M_bind, bind. destruct (result (c meta)); simpl; auto.
Qed.

(** Sequencing through an intermediate assertion [I] on the outcome of the
    first two steps. *)
Lemma wp_seq {A B C} (c : M A) (k : A -> M B) (h : B -> M C) meta Q
    (I : exn + B -> gmap string value -> list event -> Prop) :
  wp (c ≫= k) meta I ->
  (forall r m t, I r m t ->
     match r with
     | inl e => Q (inl e) m t
     | inr b => wp (h b) m (fun r' m' t' => Q r' m' (t ++ t'))
     end) ->
  wp (c ≫= (fun a => k a ≫= h)) meta Q.
Proof.
  unfold wp, mbind, M_bind, bind. intros HI HQ.
  specialize (HQ _ _ _ HI). revert HQ.
  destruct (result (c meta)); simpl; [auto|].
  destruct (result (k a (meta_after (c meta)))); simpl; [auto|].
  rewrite app_assoc. auto.
Qed.

Lemma wp_mono {A} (c : M A) meta (Q Q' : exn + A -> gmap string value -> list event -> Prop) :
  wp c meta Q -> (forall r m t, Q r m t -> Q' r m t) -> wp c meta Q'.
Proof. unfold wp. auto. Qed.

Lemma wp_ret {A} (a : A) meta Q : Q (inr a) meta [] -> wp (mret a) meta Q.
Proof. exact id. Qed.

Lemma wp_emit e meta (Q : exn + unit -> _) :
  Q (inr tt) meta [e] -> wp (emit e) meta Q.
Proof. exact id. Qed.

Lemma wp_raise {A} e meta (Q : exn + A -> _) :
  Q (inl e) meta [] -> wp (raise e) meta Q.
Proof. exact id. Qed.

Lemma wp_lift {A} (r : exn + A) meta Q : Q r meta [] -> wp (lift r) meta Q.
Proof. exact id. Qed.

Lemma wp_setattr name v meta (Q : exn + unit -> _) :
  Q (inr tt) (<[name := v]> meta) [] -> wp (setattr name v) meta Q.
Proof. exact id. Qed.

Lemma wp_hasattr name meta Q :
  Q (inr (match meta !! name with Some _ => true | None => false end)) meta [] ->
  wp (hasattr name) meta Q.
Proof. exact id. Qed.

Lemma wp_getattr name meta Q :
  (forall v, meta !! name = Some v -> Q (inr v) meta []) ->
  (meta !! name = None -> Q (inl (AttributeError name)) meta []) ->
  wp (getattr name) meta Q.
Proof. unfold wp, getattr. simpl. destruct (meta !! name); auto. Qed.

Lemma wp_fmap {A B} (f : A -> B) (c : M A) meta Q :
  wp c meta (fun r m t => Q (match r with inl e => inl e | inr a => inr (f a) end) m t) ->
  wp (f <$> c) meta Q.
Proof.
  unfold wp, fmap, M_fmap, bind. destruct (result (c meta)); simpl; [auto|].
  rewrite app_nil_r. auto.
Qed.

Lemma wp_getattr_int name meta Q :
  (forall v z, meta !! name = Some v -> Py.as_int v = Some z -> Q (inr z) meta []) ->
  (forall e, (meta !! name ≫= Py.as_int) = None -> Q (inl e) meta []) ->
  wp (getattr_int name) meta Q.
Proof.
  intros Hok Herr. unfold getattr_int. apply wp_bind, wp_getattr.
  - intros v Hv. destruct (Py.as_int v) as [z|] eqn:Hz.
    + apply wp_ret. simpl. eauto.
    + apply wp_raise. simpl. apply Herr. rewrite Hv. exact Hz.
  - intros Hv. apply Herr. rewrite Hv. reflexivity.
Qed.

Lemma wp_outputdir_plus fname meta Q :
  (forall d, meta !! "outputdir" = Some (VStr d) -> Q (inr (d +:+ fname)) meta []) ->
  (forall e, (forall d, meta !! "outputdir" <> Some (VStr d)) -> Q (inl e) meta []) ->
  wp (outputdir_plus fname) meta Q.
Proof.
  intros Hok Herr. unfold outputdir_plus. apply wp_bind, wp_getattr.
  - intros v Hv. destruct v; try (apply wp_raise, Herr; congruence).
    apply wp_ret. simpl. auto.
  - intros Hv. apply Herr. congruence.
Qed.

Lemma wp_padded k name meta Q :
  (forall s, padded_of k (meta !! name) = Some s -> Q (inr s) meta []) ->
  (forall e, padded_of k (meta !! name) = None -> Q (inl e) meta []) ->
  wp (padded k name) meta Q.
Proof.
  intros Hok Herr. unfold padded. apply wp_bind, wp_getattr.
  - intros v Hv. apply wp_bind, wp_lift.
    unfold padded_of in *. rewrite Hv in *.
    destruct (Py.log10_width v) as [e|w]; [apply Herr; reflexivity|].
    apply wp_ret. simpl. apply Hok. reflexivity.
  - intros Hv. apply Herr. unfold padded_of. rewrite Hv. reflexivity.
Qed.

Lemma wp_pause_unless_hidden secs meta Q :
  (forall h, meta !! "hide_plots" = Some h ->
     Q (inr tt) meta (if Py.truthy h then [] else [Pause secs])) ->
  (meta !! "hide_plots" = None -> Q (inl (AttributeError "hide_plots")) meta []) ->
  wp (pause_unless_hidden secs) meta Q.
Proof.
  intros Hok Herr. unfold pause_unless_hidden. apply wp_bind, wp_getattr; [|exact Herr].
  intros h Hh. specialize (Hok h Hh).
  destruct (Py.truthy h); [apply wp_ret|apply wp_emit]; exact Hok.
Qed.

Lemma wp_for_range k (body : Z -> M unit) meta Body :
  (forall n, 0 <= n < k -> wp (body n) meta (fun r m t => m = meta /\ Body n r t)) ->
  wp (for_range k body) meta
     (fun r m t => m = meta /\ loop_trace Body (seqZ 0 k) r t).
Proof.
  intros Hbody. unfold for_range.
  assert (forall n, n ∈ seqZ 0 k ->
            wp (body n) meta (fun r m t => m = meta /\ Body n r t)) as H.
  { intros n Hn. apply Hbody. apply elem_of_seqZ in Hn. lia. }
  clear Hbody. induction (seqZ 0 k) as [|n l IH]; simpl.
  - apply wp_ret. split; constructor.
  - apply wp_bind. eapply wp_mono; [apply H; left|].
    intros r m t [-> HB]. destruct r as [e|[]].
    + split; [reflexivity|]. apply loop_raise, HB.
    + eapply wp_mono; [apply IH; intros; apply H; right; assumption|].
      simpl. intros r m t' [-> HL]. split; [reflexivity|].
      apply loop_next; assumption.
Qed.

Lemma pauses_follow_saves_weaken b t :
  pauses_follow_saves false t = true -> pauses_follow_saves b t = true.
Proof. destruct t as [|[] t]; simpl; auto. discriminate. Qed.

Lemma pauses_follow_saves_app b t1 t2 :
  pauses_follow_saves b t1 = true -> pauses_follow_saves false t2 = true ->
  pauses_follow_saves b (t1 ++ t2) = true.
Proof.
  revert b. induction t1 as [|e t1 IH]; intros b H1 H2; simpl.
  - apply pauses_follow_saves_weaken, H2.
  - destruct e; simpl in *; auto.
    apply andb_true_iff in H1 as [-> H1]. simpl. auto.
Qed.

Lemma saves_app t1 t2 : saves (t1 ++ t2) = saves t1 ++ saves t2.
Proof. apply omap_app. Qed.

Lemma pauses_app t1 t2 : pauses (t1 ++ t2) = pauses t1 ++ pauses t2.
Proof. apply omap_app. Qed.

Lemma imshows_app t1 t2 : imshows (t1 ++ t2) = imshows t1 ++ imshows t2.
Proof. apply omap_app. Qed.

Lemma masked_where_inr condition a x :
  Ma.masked_where condition a = inr x ->
  x = Ma.MArray (Ma.shape a) (Ma.items a) (Ma.items condition).
Proof. unfold Ma.masked_where. case_decide; congruence. Qed.

End Logic.

(** One step of a run. *)
Ltac wp_step :=
  lazymatch goal with
  | |- Trace.wp (mbind _ _) _ _ => apply wp_bind
  | |- Trace.wp (PlotsS3.emit _) _ _ => apply wp_emit
  | |- Trace.wp (mret _) _ _ => apply wp_ret
  | |- Trace.wp (PlotsS3.raise _) _ _ => apply wp_raise
  | |- Trace.wp (PlotsS3.setattr _ _) _ _ => apply wp_setattr
  | |- Trace.wp (PlotsS3.getattr _) _ _ => apply wp_getattr; [intros ? ?|intros ?]
  | |- Trace.wp (PlotsS3.getattr_int _) _ _ =>
      apply wp_getattr_int; [intros ? ? ? ?|intros ? ?]
  | |- Trace.wp (PlotsS3.padded _ _) _ _ => apply wp_padded; [intros ? ?|intros ? ?]
  | |- Trace.wp (PlotsS3.outputdir_plus _) _ _ =>
      apply wp_outputdir_plus; [intros ? ?|intros ? ?]
  | |- Trace.wp (PlotsS3.pause_unless_hidden _) _ _ =>
      apply wp_pause_unless_hidden; [intros ? ?|intros ?]
  | |- Trace.wp (PlotsS3.lift ?r) _ _ => apply wp_lift; destruct r eqn:?
  | |- Trace.wp (PlotsS3.when ?c _) _ _ => unfold PlotsS3.when; destruct c eqn:?
  | |- Trace.wp (if ?c then _ else _) _ _ => destruct c eqn:?
  | |- Trace.wp (match ?x with _ => _ end) _ _ => destruct x eqn:?
  end.

Section Summaries.

Import PlotsS3 Trace Naming.

Variable os_sep : string.
Variable figure_filetype : string.

Abbreviation run := (PlotsS3.run os_sep figure_filetype).
Abbreviation paths := (Naming.paths os_sep figure_filetype).
Abbreviation summary := (Naming.summary os_sep figure_filetype).

Ltac leaf :=
  unfold Naming.summary, Naming.paths, Naming.paths_of, Naming.fig_name_of;
  repeat match goal with
         | H : padded_of _ _ = Some _ |- _ => rewrite H
         | H : _ !! "outputdir" = Some _ |- _ => rewrite H
         end;
  repeat match goal with
         | H : Py.log10_width _ = inr _ |- _ =>
             unfold Naming.padded_of; cbn -[Py.log10_width]; rewrite H; clear H
         end;
  repeat split;
  try reflexivity; try discriminate;
  try (intros ? Hh Ht;
       match goal with
       | H : _ !! "hide_plots" = Some _ |- _ => rewrite H in Hh; injection Hh as ->
       end; rewrite Ht; reflexivity);
  try (intros _;
       match goal with
       | |- context [Py.truthy ?h] => destruct (Py.truthy h)
       end; reflexivity);
  try (match goal with
       | |- context [Py.truthy ?h] => destruct (Py.truthy h)
       end; reflexivity);
  try solve [ try match goal with
                  | |- context [Py.truthy ?h] => destruct (Py.truthy h)
                  end;
              simpl; repeat constructor ].

Lemma drift_2D_summary meta :
  wp (drift_2D os_sep figure_filetype) meta (summary Drift2D meta).
Proof. unfold drift_2D. repeat wp_step; leaf. Qed.

Lemma optimal_spectrum_summary n m meta :
  wp (optimal_spectrum os_sep figure_filetype n m) meta (summary (OptimalSpectrum n m) meta).
Proof. unfold optimal_spectrum. repeat wp_step; leaf. Qed.

Lemma source_position_summary m n g w meta :
  wp (source_position os_sep figure_filetype m n g w) meta (summary (SourcePosition m n g w) meta).
Proof. unfold source_position. repeat wp_step; leaf. Qed.

Lemma profile_summary n m meta :
  wp (profile os_sep figure_filetype n m) meta (summary (Profile n m) meta).
Proof. unfold profile. repeat wp_step; leaf. Qed.

Lemma subdata_summary i n m sh meta :
  wp (subdata os_sep figure_filetype i n m sh) meta (summary (Subdata i n m sh) meta).
Proof. unfold subdata. repeat wp_step; leaf. Qed.

Lemma driftypos_summary meta :
  wp (driftypos os_sep figure_filetype) meta (summary Driftypos meta).
Proof. unfold driftypos. repeat wp_step; leaf. Qed.

Lemma driftywidth_summary meta :
  wp (driftywidth os_sep figure_filetype) meta (summary Driftywidth meta).
Proof. unfold driftywidth. repeat wp_step; leaf. Qed.

Lemma residualBackground_summary data m lo hi meta :
  wp (residualBackground os_sep figure_filetype data m lo hi) meta
     (summary (ResidualBackground data m lo hi) meta).
Proof. unfold residualBackground. repeat wp_step; leaf. Qed.

Lemma curvature_summary meta :
  wp (curvature os_sep figure_filetype) meta (summary Curvature meta).
Proof. unfold curvature. repeat wp_step; leaf. Qed.

Lemma median_frame_summary meta :
  wp (median_frame os_sep figure_filetype) meta (summary MedianFrame meta).
Proof. unfold median_frame. repeat wp_step; leaf. Qed.


(** *** [lc_nodriftcorr] *)

Ltac run_block :=
  unfold wp, orM, when, mbind, M_bind, fmap, M_fmap, bind,
    hasattr, getattr, setattr, emit, mret, M_ret, ret; cbn.

Lemma default_vmin_vmin meta :
  exists v, default_vmin meta !! "vmin" = Some v /\ Py.is_none v = false.
Proof.
  unfold default_vmin, absent_or_none.
  destruct (meta !! "vmin") as [v|] eqn:Hv.
  - destruct (Py.is_none v) eqn:Hn.
    + exists (VFloat 0.97). rewrite lookup_insert_eq. auto.
    + exists v. auto.
  - exists (VFloat 0.97). rewrite lookup_insert_eq. auto.
Qed.

Lemma lc_block_vmin meta :
  wp (orM (negb <$> hasattr "vmin") (Py.is_none <$> getattr "vmin")
      ≫= fun c => when c (setattr "vmin" (VFloat 0.97))) meta
     (fun r m t => r = inr tt /\ m = default_vmin meta /\ t = []).
Proof.
  unfold default_vmin, absent_or_none. run_block.
  destruct (meta !! "vmin") as [v|] eqn:Hv; cbn; [|auto].
  rewrite Hv. cbn. destruct (Py.is_none v); cbn; auto.
Qed.

Lemma lc_block_vmax meta :
  (exists v, meta !! "vmin" = Some v /\ Py.is_none v = false) ->
  wp (orM (negb <$> hasattr "vmax") (Py.is_none <$> getattr "vmin")
      ≫= fun c => when c (setattr "vmax" (VFloat 1.03))) meta
     (fun r m t => r = inr tt /\ m = default_vmax meta /\ t = []).
Proof.
  intros (v & Hv & Hn). unfold default_vmax. run_block.
  destruct (meta !! "vmax") as [w|]; cbn; [|auto].
  rewrite Hv. cbn. rewrite Hn. cbn. auto.
Qed.

Lemma lc_block_time_axis meta :
  wp (orM (negb <$> hasattr "time_axis") (Py.is_none <$> getattr "time_axis")
      ≫= fun c : bool =>
           if c then setattr "time_axis" (VStr "y")
           else
             t ← getattr "time_axis";
             when (negb (Py.eq_str t "y" || Py.eq_str t "x"))
               (emit (Print "WARNING: meta.time_axis is not one of ['y', 'x']! Using 'y' by default.") ;;
                setattr "time_axis" (VStr "y"))) meta
     (fun r m t => r = inr tt /\ m = default_time_axis meta /\
                   t = if lc_warns meta then [Print time_axis_warning] else []).
Proof.
  unfold default_time_axis, lc_warns, valid_time_axis. run_block.
  destruct (meta !! "time_axis") as [v|] eqn:Hv; cbn; [|auto].
  rewrite ?Hv. cbn.
  destruct (Py.is_none v); cbn; [auto|].
  rewrite ?Hv. cbn.
  destruct (Py.eq_str v "y" || Py.eq_str v "x"); cbn; auto.
Qed.

Lemma lc_defaults_other meta k :
  k <> "vmin" -> k <> "vmax" -> k <> "time_axis" ->
  lc_defaults meta !! k = meta !! k.
Proof.
  intros H1 H2 H3.
  unfold lc_defaults, default_time_axis, default_vmax, default_vmin.
  repeat case_match; rewrite ?lookup_insert_ne by congruence; reflexivity.
Qed.

Lemma default_vmax_vmax meta : is_Some (default_vmax meta !! "vmax").
Proof.
  unfold default_vmax. destruct (meta !! "vmax") eqn:H.
  - rewrite H. eauto.
  - rewrite lookup_insert_eq. eauto.
Qed.

Lemma default_time_axis_other meta k :
  k <> "time_axis" -> default_time_axis meta !! k = meta !! k.
Proof.
  intros H. unfold default_time_axis.
  repeat case_match; rewrite ?lookup_insert_ne by congruence; reflexivity.
Qed.

Lemma default_vmax_other meta k :
  k <> "vmax" -> default_vmax meta !! k = meta !! k.
Proof.
  intros H. unfold default_vmax.
  repeat case_match; rewrite ?lookup_insert_ne by congruence; reflexivity.
Qed.

Lemma default_vmin_other meta k :
  k <> "vmin" -> default_vmin meta !! k = meta !! k.
Proof.
  intros H. unfold default_vmin.
  destruct (absent_or_none _); rewrite ?lookup_insert_ne by congruence; reflexivity.
Qed.

Lemma lc_defaults_vmin meta : is_Some (lc_defaults meta !! "vmin").
Proof.
  unfold lc_defaults.
  rewrite default_time_axis_other, default_vmax_other by discriminate.
  destruct (default_vmin_vmin meta) as (v & -> & _). eauto.
Qed.

Lemma lc_defaults_vmax meta : is_Some (lc_defaults meta !! "vmax").
Proof.
  unfold lc_defaults. rewrite default_time_axis_other by discriminate.
  apply default_vmax_vmax.
Qed.

Lemma default_time_axis_valid meta :
  default_time_axis meta !! "time_axis" = Some (VStr "y") \/
  default_time_axis meta !! "time_axis" = Some (VStr "x").
Proof.
  unfold default_time_axis, valid_time_axis.
  destruct (meta !! "time_axis") as [v|] eqn:Hv;
    [|left; apply lookup_insert_eq].
  destruct v as [| | | |s]; simpl; try (left; apply lookup_insert_eq).
  destruct (String.eqb_spec s "y") as [->|]; simpl; [auto|].
  destruct (String.eqb_spec s "x") as [->|]; simpl; [auto|].
  left; apply lookup_insert_eq.
Qed.

(** What a run of [lc_nodriftcorr] satisfies. *)
Lemma lc_nodriftcorr_outcome meta :
  wp (lc_nodriftcorr os_sep figure_filetype) meta (fun r m t =>
    m = lc_defaults meta /\
    prints t = (if lc_warns meta then [time_axis_warning] else []) /\
    (lc_ready meta <-> r = inr tt) /\
    summary LcNodriftcorr meta r m t).
Proof.
  unfold lc_nodriftcorr.
  refine (wp_seq _ _ _ _ _ _ (lc_block_vmin meta) _).
  intros r m t (-> & -> & ->).
  refine (wp_seq _ _ _ _ _ _ (lc_block_vmax _ (default_vmin_vmin meta)) _).
  intros r m t (-> & -> & ->).
  refine (wp_seq _ _ _ _ _ _ (lc_block_time_axis _) _).
  intros r m t (-> & -> & ->).
  fold (lc_defaults meta).
  pose proof (lc_defaults_other meta) as Hother.
  pose proof (lc_defaults_vmin meta) as [vmin Hvmin].
  pose proof (lc_defaults_vmax meta) as [vmax Hvmax].
  assert (is_Some (lc_defaults meta !! "time_axis")) as [ta Hta]
    by (destruct (default_time_axis_valid (default_vmax (default_vmin meta))) as [H|H];
        unfold lc_defaults; rewrite H; eauto).
  assert (lc_warns (default_vmax (default_vmin meta)) = lc_warns meta) as ->.
  { unfold lc_warns.
    rewrite default_vmax_other, default_vmin_other by discriminate. reflexivity. }
  generalize dependent (lc_defaults meta). intros m0 Hother Hvmin Hvmax Hta.
  destruct (lc_warns meta);
  repeat wp_step;
  repeat match goal with
         | H : m0 !! _ = _ |- _ => rewrite Hother in H by discriminate
         | H : forall d, m0 !! _ <> _ |- _ => rewrite Hother in H by discriminate
         end;
  (split; [reflexivity|]);
  (split; [try reflexivity; try (destruct (Py.truthy _); reflexivity)|]);
  (split; [split;
           [ try reflexivity;
             try (intros (Hn & (v' & Hm & Hm1 & Hm2) & (d' & Hd) & Hh); exfalso;
                  first [ congruence
                        | destruct Hn; congruence
                        | destruct Hh; congruence
                        | match goal with H : forall d, _ <> _ |- _ => exact (H _ Hd) end
                        | rewrite Hm in *; simplify_eq; simpl in *; congruence ])
           | try discriminate; intros _; unfold lc_ready; eauto 10 ]|]);
  unfold Naming.summary, Naming.paths, Naming.paths_of;
  rewrite ?Hother by discriminate;
  repeat match goal with
         | H : _ !! "outputdir" = Some _ |- _ => rewrite H
         end;
  repeat split; try reflexivity; try discriminate;
  try (intros ? Hh Ht;
       match goal with
       | H : _ !! "hide_plots" = Some _ |- _ => rewrite H in Hh; injection Hh as ->
       end; rewrite Ht; reflexivity);
  try (intros _; destruct (Py.truthy _); reflexivity);
  try (destruct (Py.truthy _); reflexivity);
  try (intros Hc; destruct Hc; reflexivity);
  try solve [ try destruct (Py.truthy _); simpl; repeat constructor ].
Qed.

(** *** [image_and_background] *)

Lemma loop_3301 data m meta l r t :
  loop_trace (body_3301 os_sep figure_filetype data m meta) l r t ->
  pauses_follow_saves false t = true /\
  (forall h, meta !! "hide_plots" = Some h -> Py.truthy h = true -> pauses t = []) /\
  (r = inr tt -> mapM (path_3301 os_sep figure_filetype m meta) l = Some (saves t)) /\
  Forall (fun x => exists n, n ∈ l /\ shown_3301 data n x) (imshows t) /\
  Forall (fun k => k = 3301) (figures t).
Proof.
  induction 1 as [|n l e t (Hp & Hh & _ & Hs & Hf)
                  |n l t r t' (Hp & Hh & Hok & Hs & Hf) _
                     (IHp & IHh & IHok & IHs & IHf)].
  - repeat split; auto.
  - split; [exact Hp|]. split; [exact Hh|]. split; [discriminate|].
    split; [|exact Hf].
    eapply Forall_impl; [exact Hs|]. intros x Hx. exists n. split; [left|exact Hx].
  - split; [apply pauses_follow_saves_app; assumption|].
    split; [intros h H1 H2; rewrite pauses_app, (Hh h), (IHh h); auto|].
    split; [|split].
    + intros ->. destruct (Hok eq_refl) as (p & Hpath & Hsave).
      rewrite saves_app, Hsave. simpl. rewrite Hpath, (IHok eq_refl). reflexivity.
    + rewrite imshows_app. apply Forall_app. split.
      * eapply Forall_impl; [exact Hs|]. intros x Hx. exists n. split; [left|exact Hx].
      * eapply Forall_impl; [exact IHs|]. intros x (n' & Hn' & Hx).
        exists n'. split; [right; exact Hn'|exact Hx].
    + unfold figures. rewrite omap_app. apply Forall_app. split; assumption.
Qed.

Ltac body_leaf :=
  unfold Naming.body_3301, Naming.path_3301, Naming.fig_name_3301;
  repeat match goal with
         | H : padded_of _ _ = Some _ |- _ => rewrite H
         | H : _ !! "outputdir" = Some _ |- _ => rewrite H
         end;
  try match goal with
      | |- context [Py.truthy ?h] => destruct (Py.truthy h) eqn:?
      end;
  (split; [reflexivity|]);
  (split; [first [ reflexivity
                 | intros ? Hh Ht;
                   match goal with
                   | H : _ !! "hide_plots" = Some _ |- _ =>
                       rewrite H in Hh; injection Hh as ->
                   end; congruence ]|]);
  (split; [first [ discriminate
                 | intros _; eexists; split; reflexivity ]|]);
  (split;
   [ simpl;
     repeat (apply Forall_cons; split;
             [first [ left; repeat split; assumption
                    | right; repeat split; assumption ]|]);
     apply Forall_nil; exact I
   | simpl; repeat constructor ]).

Lemma image_and_background_outcome data m meta :
  wp (image_and_background os_sep figure_filetype data m) meta (fun r m' t =>
    summary (ImageAndBackground data m) meta r m' t /\
    Forall (fun x => exists n, 0 <= n /\ shown_3301 data n x) (imshows t)).
Proof.
  unfold image_and_background.
  repeat wp_step;
    lazymatch goal with
    | |- wp (for_range _ _) _ _ => idtac
    | _ => split; [leaf|constructor]
    end.
  repeat match goal with
         | H : Ma.masked_where _ _ = inr _ |- _ => apply masked_where_inr in H; subst
         end.
  eapply wp_mono.
  - apply (wp_for_range _ _ _ (body_3301 os_sep figure_filetype data m meta)).
    intros n Hn.
    repeat wp_step; (split; [reflexivity|]); body_leaf.
  - simpl. intros r m' t [-> Hloop].
    apply loop_3301 in Hloop as (Hp & Hh & Hok & Hs & Hf).
    split.
    + unfold Naming.summary. repeat split; auto.
      intros ->. unfold Naming.paths, Naming.paths_of.
      repeat match goal with
             | H : _ !! _ = Some _ |- _ => rewrite H
             end.
      simpl.
      repeat match goal with
             | H : Py.as_int _ = Some _ |- _ => rewrite H
             end.
      simpl. apply Hok. reflexivity.
    + simpl. eapply Forall_impl; [exact Hs|].
      intros x (n & Hn & Hx). exists n. split; [|exact Hx].
      apply elem_of_seqZ in Hn. lia.
Qed.

End Summaries.

(** ** Reading a padded index back *)

Section ReadBack.

Import Py.

Local Open Scope N_scope.

Lemma digit_val_digit_char (d : N) : d < 10 -> digit_val (digit_char d) = d.
Proof.
  intros H. unfold digit_val, digit_char.
  rewrite N_ascii_embedding by lia. lia.
Qed.

Lemma int_digits_str_digits (f : nat) (n a : N) (acc : string) :
  n < 2 ^ N.of_nat f ->
  int_digits a (str_digits f n acc)
  = int_digits (a * 10 ^ N.of_nat (ndigits_aux f n) + n) acc.
Proof.
  revert n acc. induction f as [|f IH]; intros n acc Hf.
  - simpl in *. f_equal. lia.
  - simpl str_digits. simpl ndigits_aux.
    pose proof (N.mod_lt n 10 ltac:(lia)) as Hmod.
    destruct (N.ltb_spec n 10) as [Hlt|Hge].
    + simpl. rewrite digit_val_digit_char by assumption.
      rewrite N.mod_small by assumption. f_equal. lia.
    + rewrite IH by (apply fuel_step, Hf). simpl int_digits.
      rewrite digit_val_digit_char by assumption. f_equal.
      rewrite Nat2N.inj_succ, N.pow_succ_r'.
      pose proof (N.Div0.div_mod n 10) as Hdm.
      generalize dependent (10 ^ N.of_nat (ndigits_aux f (n / 10))).
      generalize dependent (n / 10). generalize dependent (n mod 10).
      intros. lia.
Qed.

Lemma int_digits_str_N (n : N) : int_digits 0 (str_N n) = n.
Proof.
  unfold str_N. rewrite int_digits_str_digits by apply digit_fuel_spec.
  simpl. lia.
Qed.

Lemma int_digits_zeros (k : nat) (s : string) :
  int_digits 0 (zeros k +:+ s) = int_digits 0 s.
Proof. induction k as [|k IH]; [reflexivity|]. simpl zeros. rewrite string_app_cons. exact IH. Qed.

Lemma digit_char_not_sign (d : N) :
  d < 10 ->
  Ascii.eqb (digit_char d) "-"%char || Ascii.eqb (digit_char d) "+"%char = false.
Proof.
  intros H.
  assert (d = 0 \/ d = 1 \/ d = 2 \/ d = 3 \/ d = 4 \/ d = 5 \/ d = 6 \/ d = 7
          \/ d = 8 \/ d = 9) as Hd by lia.
  repeat (destruct Hd as [->|Hd]; [reflexivity|]). subst. reflexivity.
Qed.

Lemma str_digits_head (f : nat) (n : N) (acc : string) :
  exists d s, d < 10 /\ str_digits (S f) n acc = String (digit_char d) s.
Proof.
  revert n acc. induction f as [|f IH]; intros n acc;
    pose proof (N.mod_lt n 10 ltac:(lia)) as Hmod.
  - simpl. destruct (n <? 10); eauto.
  - change (str_digits (S (S f)) n acc)
      with (if n <? 10 then String (digit_char (n mod 10)) acc
            else str_digits (S f) (n / 10) (String (digit_char (n mod 10)) acc)).
    destruct (n <? 10); eauto.
Qed.

Lemma zfill_str_N (w : Z) (n : N) :
  zfill w (str_N n)
  = zeros (Z.to_nat (w - Z.of_nat (String.length (str_N n)))) +:+ str_N n.
Proof.
  unfold str_N at 1 3, digit_fuel.
  destruct (str_digits_head (N.to_nat (N.log2 n)) n "") as (d & s & Hd & Hs).
  fold (digit_fuel n). fold (str_N n).
  unfold str_N at 1, digit_fuel. rewrite Hs. unfold zfill.
  rewrite digit_char_not_sign by assumption.
  unfold str_N, digit_fuel. rewrite Hs. reflexivity.
Qed.

Lemma int_digits_zfill_str (w k : Z) :
  (0 <= k)%Z -> int_digits 0 (zfill w (str k)) = Z.to_N k.
Proof.
  intros H. rewrite str_nonneg by assumption.
  rewrite zfill_str_N, int_digits_zeros. apply int_digits_str_N.
Qed.

(** Distinct indices are rendered differently, whatever the widths. *)
Lemma zfill_str_inj (w1 w2 k1 k2 : Z) :
  (0 <= k1)%Z -> (0 <= k2)%Z ->
  zfill w1 (str k1) = zfill w2 (str k2) -> k1 = k2.
Proof.
  intros H1 H2 Heq. apply (f_equal (int_digits 0)) in Heq.
  rewrite !int_digits_zfill_str in Heq by assumption. lia.
Qed.

Lemma string_app_inv (s1 s2 r1 r2 : string) :
  String.length s1 = String.length s2 ->
  s1 +:+ r1 = s2 +:+ r2 -> s1 = s2 /\ r1 = r2.
Proof.
  revert s2. induction s1 as [|c s1 IH]; intros [|c2 s2] Hlen Heq;
    try discriminate; [auto|].
  rewrite !string_app_cons in Heq. injection Heq as -> Heq.
  destruct (IH s2) as [-> ->]; [simpl in Hlen; lia|assumption|auto].
Qed.

Lemma string_app_inv_tail (s1 s2 r : string) :
  s1 +:+ r = s2 +:+ r -> s1 = s2.
Proof.
  intros Heq. apply (string_app_inv s1 s2 r r); [|assumption].
  apply (f_equal String.length) in Heq.
  rewrite !string_length_app in Heq. lia.
Qed.

End ReadBack.

(** ** The plotting routines as a whole *)

Section Runs.

Import PlotsS3 Trace Naming.

Variable os_sep : string.
Variable figure_filetype : string.

Abbreviation run := (PlotsS3.run os_sep figure_filetype).
Abbreviation paths := (Naming.paths os_sep figure_filetype).
Abbreviation summary := (Naming.summary os_sep figure_filetype).

Lemma run_summary (c : call) (meta : gmap string value) :
  summary c meta (result (run c meta)) (meta_after (run c meta)) (trace (run c meta)).
Proof.
  change (wp (run c) meta (summary c meta)).
  destruct c; simpl PlotsS3.run.
  - eapply wp_mono; [apply lc_nodriftcorr_outcome|].
    intros r m t (_ & _ & _ & H). exact H.
  - eapply wp_mono; [apply image_and_background_outcome|].
    intros r m' t [H _]. exact H.
  - apply drift_2D_summary.
  - apply optimal_spectrum_summary.
  - apply source_position_summary.
  - apply profile_summary.
  - apply subdata_summary.
  - apply driftypos_summary.
  - apply driftywidth_summary.
  - apply residualBackground_summary.
  - apply curvature_summary.
  - apply median_frame_summary.
Qed.

Lemma lc_nodriftcorr_spec (meta : gmap string value) :
  let o := lc_nodriftcorr os_sep figure_filetype meta in
  meta_after o = lc_defaults meta /\
  prints (trace o) = (if lc_warns meta then [time_axis_warning] else []) /\
  (lc_ready meta <-> result o = inr tt).
Proof.
  pose proof (lc_nodriftcorr_outcome os_sep figure_filetype meta) as H.
  unfold wp in H. destruct H as (H1 & H2 & H3 & _).
  intros o. subst o. split; [exact H1|split; [exact H2|exact H3]].
Qed.

Lemma same_naming_paths (c : call) (meta meta' : gmap string value) :
  same_naming meta meta' -> paths c meta' = paths c meta.
Proof.
  intros (H1 & H2 & H3 & H4 & H5). unfold Naming.paths.
  rewrite H1, H2, H3, H4, H5. reflexivity.
Qed.

Lemma paths_singleton (c : call) (meta : gmap string value) (ps : list string) :
  (forall data m, c <> ImageAndBackground data m) ->
  paths c meta = Some ps -> length ps = 1%nat.
Proof.
  intros Hc H. destruct c; try (exfalso; eapply Hc; reflexivity);
    unfold Naming.paths, paths_of in H;
    destruct (meta !! "outputdir" ≫= Py.as_str) as [d|]; try discriminate;
    cbn [mbind option_bind] in H;
    try (injection H as <-; reflexivity);
    match type of H with
    | context [fig_name_of ?c ?a ?b] => destruct (fig_name_of c a b)
    end; try discriminate; cbn [mbind option_bind] in H;
    injection H as <-; reflexivity.
Qed.

Lemma path_3301_inj (m : Z) (meta : gmap string value) (n1 n2 : Z) (p : string) :
  0 <= n1 -> 0 <= n2 ->
  path_3301 os_sep figure_filetype m meta n1 = Some p ->
  path_3301 os_sep figure_filetype m meta n2 = Some p ->
  n1 = n2.
Proof.
  intros H1 H2. unfold path_3301, fig_name_3301, padded_of.
  destruct (meta !! "outputdir" ≫= Py.as_str) as [d|]; simpl; [|discriminate].
  destruct (meta !! "num_data_files") as [v|]; simpl; [|discriminate].
  destruct (Py.log10_width v) as [|wf]; simpl; [discriminate|].
  destruct (meta !! "n_int") as [v'|]; simpl; [|discriminate].
  destruct (Py.log10_width v') as [|wi]; simpl; [discriminate|].
  intros [= <-] [= Heq]. unfold code_path, component in Heq. simpl in Heq.
  repeat (apply String.app_inj in Heq || rewrite !string_app_assoc in Heq).
  apply string_app_inv_tail in Heq.
  symmetry. eapply zfill_str_inj; eassumption.
Qed.

Lemma NoDup_mapM {A B} (f : A -> option B) (l : list A) (k : list B) :
  mapM f l = Some k -> NoDup l ->
  (forall x y b, x ∈ l -> y ∈ l -> f x = Some b -> f y = Some b -> x = y) ->
  NoDup k.
Proof.
  intros H. apply mapM_Some_1 in H.
  induction H as [|x b l k Hx H IH]; intros Hnd Hinj; [constructor|].
  apply NoDup_cons in Hnd as [Hx' Hnd]. apply NoDup_cons. split.
  - intros Hb. apply list_elem_of_lookup in Hb as [i Hi].
    destruct (Forall2_lookup_r _ _ _ _ _ H Hi) as (y & Hy & Hfy).
    assert (x = y) as ->.
    { eapply Hinj; [left|right; eapply list_elem_of_lookup_2; exact Hy|exact Hx|exact Hfy]. }
    apply Hx'. eapply list_elem_of_lookup_2; exact Hy.
  - apply IH; [exact Hnd|].
    intros x0 y0 b0 ? ?. apply Hinj; right; assumption.
Qed.

Lemma paths_NoDup (c : call) (meta : gmap string value) (ps : list string) :
  paths c meta = Some ps -> NoDup ps.
Proof.
  intros H.
  destruct c;
    try (apply paths_singleton in H; [|discriminate];
         destruct ps as [|p [|q ps]]; try discriminate;
         apply NoDup_singleton).
  unfold Naming.paths, paths_of in H.
  destruct (meta !! "int_end" ≫= Py.as_int) as [e|]; simpl in H; [|discriminate].
  destruct (meta !! "int_start" ≫= Py.as_int) as [s|]; simpl in H; [|discriminate].
  eapply NoDup_mapM; [exact H|apply NoDup_seqZ|].
  intros x y b Hx Hy. apply elem_of_seqZ in Hx, Hy.
  apply path_3301_inj; lia.
Qed.

End Runs.

(** ** Zero padding (C4) *)

(** C4, as stated: with 100 data files the index 7 would be rendered "07".
    The routines give it three characters. *)
Lemma C4_index_7_of_100_is_not_07 :
  PlotsS3.result (PlotsS3.padded 7 "num_data_files" Examples.meta100) <> inr "07".
Proof. vm_compute. discriminate. Qed.

(** C4, amended: the width is the number of decimal digits of the
    configured count itself, [floor(log10(count)) + 1], so every index from
    0 to the count is rendered with that many characters and reads back as
    the index; with 100 data files the index 7 is rendered "007", with 1000
    "0007" (and with 99, "07"). *)
Theorem C4_width_is_digit_count_of_the_count :
  (forall (meta : gmap string value) (name : string) (count k : Z),
      meta !! name = Some (VInt count) ->
      0 < count < 10 ^ 14 ->
      0 <= k <= count ->
      exists s : string,
        PlotsS3.result (PlotsS3.padded k name meta) = inr s /\
        String.length s = Py.ndigits (Z.to_N count) /\
        Py.int_digits 0 s = Z.to_N k /\
        exists j : nat,
          Py.ndigits (Z.to_N count) = S j /\
          10 ^ Z.of_nat j <= count < 10 ^ Z.of_nat (S j))
  /\ PlotsS3.result (PlotsS3.padded 7 "num_data_files" Examples.meta100) = inr "007"
  /\ PlotsS3.result (PlotsS3.padded 7 "num_data_files" Examples.meta1000) = inr "0007"
  /\ PlotsS3.result (PlotsS3.padded 7 "n" {[ "n" := VInt 99 ]}) = inr "07".
Proof.
  split; [|repeat split; vm_compute; reflexivity].
  intros meta name count k Hm Hc Hk.
  exists (Py.zfill (Z.of_nat (Py.ndigits (Z.to_N count))) (Py.str k)).
  split; [|split; [|split]].
  - unfold PlotsS3.padded, PlotsS3.getattr, PlotsS3.lift, mbind, PlotsS3.M_bind,
      PlotsS3.bind, mret, PlotsS3.M_ret, PlotsS3.ret. cbn -[Py.log10_width].
    rewrite Hm. cbn -[Py.log10_width].
    rewrite log10_width_int by assumption. reflexivity.
  - apply length_zfill_str; lia.
  - apply int_digits_zfill_str. lia.
  - destruct (ndigits_spec (Z.to_N count)) as (j & Hj & Hlo & Hhi); [lia|].
    exists j. split; [exact Hj|].
    apply N2Z.inj_le in Hlo. apply N2Z.inj_lt in Hhi.
    rewrite N2Z.inj_pow, nat_N_Z, Z2N.id in Hlo, Hhi by lia.
    split; assumption.
Qed.

Lemma C4_witness :
  exists s : string,
    PlotsS3.result (PlotsS3.padded 42 "n_int" Examples.meta100) = inr s /\
    String.length s = 3%nat.
Proof.
  destruct (proj1 C4_width_is_digit_count_of_the_count
              Examples.meta100 "n_int" 100 42 eq_refl ltac:(lia) ltac:(lia))
    as (s & Hs & Hlen & _).
  exists s. split; [exact Hs|exact Hlen].
Defined.

(** ** File names (C5, C6) and the pause (C8) *)

Section FileNames.

Import PlotsS3 Trace Naming.

Variable os_sep : string.
Variable figure_filetype : string.


Lemma padded_of_zero_padded (k : Z) (count : option value) (s : string) :
  padded_of k count = Some s -> zero_padded s.
Proof.
  unfold padded_of. destruct count as [v|]; [|discriminate].
  destruct (Py.log10_width v) as [|w]; [discriminate|].
  intros [= <-]. exists w, k. reflexivity.
Qed.

Lemma fig_name_3301_wf (m n : Z) (ndf ni : option value) (f : fig_name) :
  fig_name_3301 m n ndf ni = Some f -> well_formed f /\ tag f = Py.str 3301.
Proof.
  unfold fig_name_3301.
  destruct (padded_of m ndf) as [F|] eqn:HF; [|discriminate].
  destruct (padded_of n ni) as [I|] eqn:HI; [|discriminate].
  intros [= <-]. unfold well_formed. simpl.
  repeat split; eauto using padded_of_zero_padded.
Qed.

Lemma fig_name_of_wf (c : call) (ndf ni : option value) (f : fig_name) :
  fig_name_of c ndf ni = Some f ->
  well_formed f /\ tag f = Py.str (figure_number c).
Proof.
  destruct c; simpl; try discriminate;
    repeat match goal with
           | |- context [padded_of ?k ?v] =>
               let H := fresh "H" in
               destruct (padded_of k v) eqn:H; simpl; [|discriminate];
               apply padded_of_zero_padded in H
           end;
    intros [= <-]; unfold well_formed; simpl; repeat split; auto; try discriminate.
Qed.


(** C6: a routine that returns has written the paths that [paths_of]
    computes from the invocation and five attributes (output directory,
    the two counts behind the padding, the integration range), all
    different: one path, or for [image_and_background] one per integration
    of the range, [max 0 (int_end - int_start)] in all. Another metadata
    object with the same five attributes gives the same paths; a second
    run on the metadata the first one left returns too, writes the same
    paths, and leaves the set of files as it was. *)
Theorem C6_one_file_per_figure (c : call) (meta : gmap string value) :
  let o := run os_sep figure_filetype c meta in
  result o = inr tt ->
  paths_of os_sep figure_filetype c
           (meta !! "outputdir") (meta !! "num_data_files") (meta !! "n_int")
           (meta !! "int_start") (meta !! "int_end") = Some (saves (trace o))
  /\ NoDup (saves (trace o))
  /\ match c with
     | ImageAndBackground _ _ =>
         exists e s,
           meta !! "int_end" ≫= Py.as_int = Some e /\
           meta !! "int_start" ≫= Py.as_int = Some s /\
           Z.of_nat (length (saves (trace o))) = Z.max 0 (e - s)
     | _ => length (saves (trace o)) = 1%nat
     end
  /\ (forall meta',
         same_naming meta meta' ->
         result (run os_sep figure_filetype c meta') = inr tt ->
         saves (trace (run os_sep figure_filetype c meta')) = saves (trace o))
  /\ (let o' := run os_sep figure_filetype c (meta_after o) in
      result o' = inr tt /\
      saves (trace o') = saves (trace o) /\
      forall files : gset string,
        files_after (files_after files (trace o)) (trace o') = files_after files (trace o)).
Proof.
  intros o Hr. subst o.
  destruct (run_summary os_sep figure_filetype c meta)
    as (_ & _ & Hp & Hsame & Hhide & Hm & _).
  specialize (Hp Hr).
  split; [exact Hp|]. split; [eapply paths_NoDup; exact Hp|].
  split; [|split].
  - destruct c; try (eapply paths_singleton; [|exact Hp]; discriminate).
    unfold Naming.paths, paths_of in Hp.
    destruct (meta !! "int_end" ≫= Py.as_int) as [e|]; [|discriminate].
    destruct (meta !! "int_start" ≫= Py.as_int) as [s|]; [|discriminate].
    cbn [mbind option_bind] in Hp. apply length_mapM in Hp.
    exists e, s. split; [reflexivity|]. split; [reflexivity|].
    rewrite <- Hp, length_seqZ. lia.
  - intros meta' Hn Hr'.
    destruct (run_summary os_sep figure_filetype c meta') as (_ & _ & Hp' & _).
    specialize (Hp' Hr'). rewrite (same_naming_paths _ _ _ _ _ Hn) in Hp'.
    congruence.
  - assert (result (run os_sep figure_filetype c
                        (meta_after (run os_sep figure_filetype c meta))) = inr tt) as Hr'.
    { assert (c = LcNodriftcorr \/ c <> LcNodriftcorr) as [->|Hc]
        by (destruct c; auto; right; discriminate).
      - simpl run in *.
        destruct (lc_nodriftcorr_spec os_sep figure_filetype meta) as (Hd & _ & Hready).
        rewrite Hd.
        apply (lc_nodriftcorr_spec os_sep figure_filetype (lc_defaults meta)).
        apply Hready in Hr. unfold lc_ready in *.
        rewrite !lc_defaults_other by discriminate. exact Hr.
      - rewrite (Hm Hc). exact Hr. }
    split; [exact Hr'|].
    destruct (run_summary os_sep figure_filetype c
                (meta_after (run os_sep figure_filetype c meta))) as (_ & _ & Hp' & _).
    specialize (Hp' Hr'). rewrite Hsame in Hp'.
    assert (saves (trace (run os_sep figure_filetype c
                            (meta_after (run os_sep figure_filetype c meta))))
            = saves (trace (run os_sep figure_filetype c meta))) as Hs by congruence.
    split; [exact Hs|].
    intros files. unfold files_after. rewrite Hs.
    rewrite <- (assoc_L (∪)), (idemp_L (∪)). reflexivity.
Qed.

(** C8: in the trace of every routine, whether it returns or raises, a
    pause comes directly after a [savefig], and there is no pause at all
    when [meta.hide_plots] is true. *)
Theorem C8_pause_follows_savefig_unless_hidden (c : call) (meta : gmap string value) :
  let o := run os_sep figure_filetype c meta in
  pauses_follow_saves false (trace o) = true /\
  (forall h, meta !! "hide_plots" = Some h -> Py.truthy h = true -> pauses (trace o) = []).
Proof.
  destruct (run_summary os_sep figure_filetype c meta) as (H1 & H2 & _).
  split; assumption.
Qed.

End FileNames.



Lemma C6_witness :
  let o := PlotsS3.run "/" ".png" (PlotsS3.ImageAndBackground Examples.data2 7)
                       Examples.meta100 in
  PlotsS3.result o = inr tt /\
  Trace.saves (PlotsS3.trace o)
  = ["out/figs/fig3301_file007_int000_ImageAndBackground.png";
     "out/figs/fig3301_file007_int001_ImageAndBackground.png"] /\
  NoDup (Trace.saves (PlotsS3.trace o)).
Proof.
  split; [vm_compute; reflexivity|]. split; [vm_compute; reflexivity|].
  exact (proj1 (proj2 (C6_one_file_per_figure "/" ".png"
                         (PlotsS3.ImageAndBackground Examples.data2 7)
                         Examples.meta100 eq_refl))).
Defined.

(** With the display on, the pause is there: [drift_2D] ends with the
    [savefig] and the pause; with [hide_plots] true it ends with the
    [savefig]. *)
Example drift_2D_pauses :
  Trace.pauses (PlotsS3.trace (PlotsS3.drift_2D "/" ".png" Examples.meta100))
  = [0.2%float] /\
  Trace.pauses (PlotsS3.trace (PlotsS3.drift_2D "/" ".png" Examples.meta_hidden)) = [] /\
  Trace.saves (PlotsS3.trace (PlotsS3.drift_2D "/" ".png" Examples.meta_hidden))
  = ["out/figs/fig3105_Drift2D.png"].
Proof. repeat split; vm_compute; reflexivity. Qed.

(** ** The defaults of [lc_nodriftcorr] (C7, C9) *)

Section LcDefaults.

Import PlotsS3 Trace.

Variable os_sep : string.
Variable figure_filetype : string.

Lemma lc_defaults_time_axis (meta : gmap string value) :
  lc_defaults meta !! "time_axis" = default_time_axis meta !! "time_axis".
Proof.
  unfold lc_defaults, default_time_axis.
  rewrite default_vmax_other, default_vmin_other by discriminate.
  destruct (meta !! "time_axis") as [t|]; [destruct (_ || _)|];
    rewrite ?lookup_insert_eq, ?default_vmax_other, ?default_vmin_other by discriminate;
    reflexivity.
Qed.

Lemma lc_defaults_vmax_eq (meta : gmap string value) :
  lc_defaults meta !! "vmax" = default_vmax meta !! "vmax".
Proof.
  unfold lc_defaults. rewrite default_time_axis_other by discriminate.
  unfold default_vmax. rewrite default_vmin_other by discriminate.
  destruct (meta !! "vmax");
    rewrite ?lookup_insert_eq, ?default_vmin_other by discriminate; reflexivity.
Qed.

Lemma lc_defaults_vmin_eq (meta : gmap string value) :
  lc_defaults meta !! "vmin" = default_vmin meta !! "vmin".
Proof.
  unfold lc_defaults.
  rewrite default_time_axis_other, default_vmax_other by discriminate. reflexivity.
Qed.


(** C9: [vmin] becomes 0.97 exactly when it was absent or [None]; [vmax]
    becomes 1.03 when it was absent and is left as it was when present.
    So [vmax] changes only if it was absent (the test [meta.vmin is None]
    on that line comes after [vmin] has been given its default), and a
    [vmax] that is [None] beside a numeric [vmin] stays [None]. *)
Theorem C9_vmin_vmax_defaults_are_asymmetric (meta : gmap string value) :
  let m := meta_after (lc_nodriftcorr os_sep figure_filetype meta) in
  (absent_or_none (meta !! "vmin") = true -> m !! "vmin" = Some (VFloat 0.97))
  /\ (absent_or_none (meta !! "vmin") = false -> m !! "vmin" = meta !! "vmin")
  /\ (meta !! "vmax" = None -> m !! "vmax" = Some (VFloat 1.03))
  /\ (forall v, meta !! "vmax" = Some v -> m !! "vmax" = Some v)
  /\ (m !! "vmax" <> meta !! "vmax" ->
        meta !! "vmax" = None \/ meta !! "vmin" = Some VNone)
  /\ (forall x, meta !! "vmax" = Some VNone -> meta !! "vmin" = Some (VFloat x) ->
        m !! "vmax" = Some VNone /\ m !! "vmin" = Some (VFloat x)).
Proof.
  destruct (lc_nodriftcorr_spec os_sep figure_filetype meta) as (Hm & _).
  cbv zeta. rewrite Hm, lc_defaults_vmax_eq, lc_defaults_vmin_eq.
  unfold default_vmin, default_vmax.
  split; [|split; [|split; [|split; [|split]]]].
  - intros ->. apply lookup_insert_eq.
  - intros ->. reflexivity.
  - intros ->. apply lookup_insert_eq.
  - intros v Hv. rewrite Hv. exact Hv.
  - destruct (meta !! "vmax") as [v|] eqn:Hv; [|auto].
    rewrite Hv. congruence.
  - intros x Hmax Hmin. rewrite Hmax, Hmin. simpl. auto.
Qed.

End LcDefaults.



Lemma C9_witness :
  let m := PlotsS3.meta_after (PlotsS3.lc_nodriftcorr "/" ".png" Examples.meta_none) in
  Examples.meta_none !! "vmax" = Some VNone /\
  Examples.meta_none !! "vmin" = Some (VFloat 0.9) /\
  m !! "vmax" = Some VNone /\ m !! "vmin" = Some (VFloat 0.9).
Proof.
  split; [reflexivity|]. split; [reflexivity|].
  exact (proj2 (proj2 (proj2 (proj2 (proj2
           (C9_vmin_vmax_defaults_are_asymmetric "/" ".png" Examples.meta_none)))))
           0.9%float eq_refl eq_refl).
Defined.

(** ** Which pixels are masked (C10) *)

Section MaskPolarity.

Import PlotsS3 Trace Naming Masking.

Variable os_sep : string.
Variable figure_filetype : string.








End MaskPolarity.

(** On [data2]: the one flagged pixel is the one drawn as bad, the
    background statistics leave its value 20 out, and the residual frame
    has for that pixel the flux of the other integration alone. *)
Example masking_of_data2 :
  Ma.ma_mask (Naming.subbg_of Examples.data2) = [false; true; false; false] /\
  Ma.compressed (Naming.subbg_of Examples.data2) = [10; 30; 50]%float /\
  Ma.median (Naming.subbg_of Examples.data2) = 30%float /\
  (fun x => Ma.ma_mask (fst (fst x))) <$>
    Trace.imshows (PlotsS3.trace
      (PlotsS3.image_and_background "/" ".png" Examples.data2 7 Examples.meta100))
  = [[false; true]; [false; true]; [false; false]; [false; false]] /\
  Trace.imshows (PlotsS3.trace
    (PlotsS3.residualBackground "/" ".png" Examples.data2 7 (-200) 1000 Examples.meta100))
  = [(Ma.MArray [1; 2]%nat [2; 4]%float [false; false], (-200)%float, 1000%float)].
Proof. repeat split; vm_compute; reflexivity. Qed.

(** * Further properties of the plotting routines *)

(** ** What the routines do to the metadata *)

Section MetadataEffects.

Import PlotsS3 Trace.

Variable os_sep : string.
Variable figure_filetype : string.

Lemma lc_defaults_keeps (meta : gmap string value) (k : string) :
  is_Some (meta !! k) -> is_Some (lc_defaults meta !! k).
Proof.
  intros Hk.
  destruct (decide (k = "vmin")) as [->|H1]; [apply lc_defaults_vmin|].
  destruct (decide (k = "vmax")) as [->|H2]; [apply lc_defaults_vmax|].
  destruct (decide (k = "time_axis")) as [->|H3].
  - destruct (default_time_axis_valid (default_vmax (default_vmin meta))) as [H|H];
      unfold lc_defaults; rewrite H; eauto.
  - rewrite lc_defaults_other by assumption. exact Hk.
Qed.

(** Of the twelve routines only [lc_nodriftcorr] assigns to the metadata,
    and it assigns to [vmin], [vmax] and [time_axis] alone; no routine
    removes an attribute. This holds for runs that raise as well. *)
Theorem metadata_is_only_defaulted (c : call) (meta : gmap string value) :
  let m := meta_after (run os_sep figure_filetype c meta) in
  (c <> LcNodriftcorr -> m = meta)
  /\ (forall k, k <> "vmin" -> k <> "vmax" -> k <> "time_axis" -> m !! k = meta !! k)
  /\ (forall k, is_Some (meta !! k) -> is_Some (m !! k)).
Proof.
  destruct (run_summary os_sep figure_filetype c meta) as (_ & _ & _ & _ & _ & Hm & _).
  assert (c = LcNodriftcorr \/ c <> LcNodriftcorr) as [->|Hc]
    by (destruct c; auto; right; discriminate).
  - simpl run.
    destruct (lc_nodriftcorr_spec os_sep figure_filetype meta) as (-> & _).
    split; [congruence|]. split; [apply lc_defaults_other|apply lc_defaults_keeps].
  - cbv zeta. rewrite (Hm Hc). auto.
Qed.

Lemma lc_defaults_fixed (meta : gmap string value) :
  lc_defaults (lc_defaults meta) = lc_defaults meta /\ lc_warns (lc_defaults meta) = false.
Proof.
  set (m := lc_defaults meta).
  assert (exists v, m !! "vmin" = Some v /\ Py.is_none v = false) as (v & Hv & Hn).
  { subst m. unfold lc_defaults.
    rewrite default_time_axis_other, default_vmax_other by discriminate.
    apply default_vmin_vmin. }
  destruct (lc_defaults_vmax meta) as [w Hw]. fold m in Hw.
  assert (exists t, m !! "time_axis" = Some t /\ Py.is_none t = false
                    /\ valid_time_axis t = true) as (t & Ht & Htn & Htv).
  { subst m.
    destruct (default_time_axis_valid (default_vmax (default_vmin meta))) as [H|H];
      unfold lc_defaults; rewrite H; eexists; repeat split; reflexivity. }
  assert (default_vmin m = m) as E1
    by (unfold default_vmin, absent_or_none; rewrite Hv, Hn; reflexivity).
  assert (default_vmax m = m) as E2
    by (unfold default_vmax; rewrite Hw; reflexivity).
  assert (default_time_axis m = m) as E3
    by (unfold default_time_axis; rewrite Ht, Htn, Htv; reflexivity).
  split.
  - unfold lc_defaults at 1. rewrite E1, E2, E3. reflexivity.
  - unfold lc_warns. rewrite Ht, Htn, Htv. reflexivity.
Qed.

(** A second call of [lc_nodriftcorr] on the metadata the first one left
    finds nothing to default: it leaves the metadata as it is and prints
    no warning, whatever the first call printed; and it returns exactly
    when the first one did. *)
Theorem lc_nodriftcorr_defaults_once (meta : gmap string value) :
  let o1 := lc_nodriftcorr os_sep figure_filetype meta in
  let o2 := lc_nodriftcorr os_sep figure_filetype (meta_after o1) in
  meta_after o2 = meta_after o1
  /\ prints (trace o2) = []
  /\ (result o2 = inr tt <-> result o1 = inr tt).
Proof.
  cbv zeta.
  destruct (lc_nodriftcorr_spec os_sep figure_filetype meta) as (Hm & _ & Hr).
  rewrite Hm.
  destruct (lc_nodriftcorr_spec os_sep figure_filetype (lc_defaults meta))
    as (Hm' & Hp' & Hr').
  destruct (lc_defaults_fixed meta) as [Hfix Hwarn].
  rewrite Hm', Hp', Hfix, Hwarn. split; [reflexivity|]. split; [reflexivity|].
  rewrite <- Hr, <- Hr'. unfold lc_ready.
  rewrite !lc_defaults_other by discriminate. reflexivity.
Qed.

End MetadataEffects.

(** ** Digits in file names *)

Section Digits.

Import Py Naming.

Lemma is_digit_digit_char (d : N) : (d < 10)%N -> is_digit (digit_char d) = true.
Proof.
  intros H. unfold is_digit, digit_char.
  rewrite N_ascii_embedding by lia.
  apply andb_true_iff. split; [apply N.leb_le|apply N.leb_le]; lia.
Qed.

Lemma all_digits_app (s t : string) :
  all_digits s = true -> all_digits t = true -> all_digits (s +:+ t) = true.
Proof.
  induction s as [|c s IH]; [auto|].
  rewrite string_app_cons. simpl. intros H Ht.
  apply andb_true_iff in H as [-> H]. simpl. auto.
Qed.

Lemma all_digits_zeros (k : nat) : all_digits (zeros k) = true.
Proof. induction k; [reflexivity|exact IHk]. Qed.

Lemma all_digits_str_digits (f : nat) (n : N) (acc : string) :
  all_digits acc = true -> all_digits (str_digits f n acc) = true.
Proof.
  revert n acc. induction f as [|f IH]; intros n acc Hacc; [exact Hacc|].
  simpl str_digits.
  assert (all_digits (String (digit_char (n mod 10)) acc) = true) as H.
  { simpl. rewrite is_digit_digit_char by (apply N.mod_lt; lia). exact Hacc. }
  destruct (n <? 10)%N; [exact H|apply IH, H].
Qed.

Lemma all_digits_zfill_str (w k : Z) :
  0 <= k -> all_digits (zfill w (str k)) = true.
Proof.
  intros H. rewrite str_nonneg, zfill_str_N by assumption.
  apply all_digits_app; [apply all_digits_zeros|].
  apply all_digits_str_digits. reflexivity.
Qed.

Lemma str_inj (n1 n2 : Z) : 0 <= n1 -> 0 <= n2 -> str n1 = str n2 -> n1 = n2.
Proof.
  intros H1 H2 Heq. rewrite !str_nonneg in Heq by assumption.
  apply (f_equal (int_digits 0)) in Heq. rewrite !int_digits_str_N in Heq. lia.
Qed.

(** Two runs of digits, each followed by an underscore, are told apart by
    the first underscore. *)
Lemma digits_then_underscore (s1 s2 r1 r2 : string) :
  all_digits s1 = true -> all_digits s2 = true ->
  s1 +:+ String "_" r1 = s2 +:+ String "_" r2 -> s1 = s2 /\ r1 = r2.
Proof.
  revert s2. induction s1 as [|c s1 IH]; intros [|c2 s2] H1 H2 Heq;
    rewrite ?string_app_cons, ?string_app_nil_l in Heq.
  - injection Heq as ->. auto.
  - injection Heq as <- _. simpl in H2. discriminate.
  - injection Heq as -> _. simpl in H1. discriminate.
  - injection Heq as -> Heq. simpl in H1, H2.
    apply andb_true_iff in H1 as [_ H1]. apply andb_true_iff in H2 as [_ H2].
    destruct (IH s2 H1 H2 Heq) as [-> ->]. auto.
Qed.

End Digits.

(** ** File names tell invocations apart *)

Section Collisions.

Import PlotsS3 Trace Naming Calls.

Variable os_sep : string.
Variable figure_filetype : string.

Lemma padded_of_inv (k : Z) (count : option value) (s : string) :
  padded_of k count = Some s -> exists w, s = Py.zfill w (Py.str k).
Proof.
  unfold padded_of. destruct count as [v|]; [|discriminate].
  destruct (Py.log10_width v) as [|w]; [discriminate|].
  intros [= <-]. exists w. reflexivity.
Qed.

Lemma figure_number_tag (c : call) :
  String.length (Py.str (figure_number c)) = 4%nat /\ 0 <= figure_number c.
Proof. destruct c; split; (reflexivity || (simpl; lia)). Qed.

(** Every path of an invocation starts with the output directory, [figs]
    and [fig] followed by the number of its figure. *)
Lemma paths_tagged (c : call) (meta : gmap string value) (ps : list string) (p : string) :
  Naming.paths os_sep figure_filetype c meta = Some ps -> p ∈ ps ->
  exists d rest,
    meta !! "outputdir" ≫= Py.as_str = Some d /\
    p = d +:+ "figs" +:+ os_sep +:+ "fig" +:+ Py.str (figure_number c) +:+ rest.
Proof.
  unfold Naming.paths, paths_of.
  destruct c;
    try (destruct (meta !! "outputdir" ≫= Py.as_str) as [d|]; [|discriminate];
         cbn [mbind option_bind];
         try match goal with
             | |- context [fig_name_of ?c ?a ?b] =>
                 let H := fresh "H" in
                 destruct (fig_name_of c a b) as [f|] eqn:H; [|discriminate];
                 apply fig_name_of_wf in H as [_ H]
             end;
         cbn [mbind option_bind];
         intros [= <-] Hp; apply list_elem_of_singleton in Hp as ->;
         exists d; eexists; split; [reflexivity|];
         first [ reflexivity | unfold code_path; rewrite H; reflexivity ]).
  destruct (meta !! "int_end" ≫= Py.as_int) as [e|]; [|discriminate].
  destruct (meta !! "int_start" ≫= Py.as_int) as [s|]; [|discriminate].
  cbn [mbind option_bind]. intros H Hp. apply mapM_Some_1 in H.
  apply list_elem_of_lookup in Hp as [i Hi].
  destruct (Forall2_lookup_r _ _ _ _ _ H Hi) as (n & _ & Hn).
  destruct (meta !! "outputdir" ≫= Py.as_str) as [d|]; [|discriminate].
  cbn [mbind option_bind] in Hn.
  destruct (fig_name_3301 m n _ _) as [f|] eqn:Hf; [|discriminate].
  apply fig_name_3301_wf in Hf as [_ Hf]. injection Hn as <-.
  exists d. eexists. split; [reflexivity|].
  unfold code_path. rewrite Hf. reflexivity.
Qed.

Lemma paths_same_figure (c1 c2 : call) (meta : gmap string value)
    (ps1 ps2 : list string) (p : string) :
  Naming.paths os_sep figure_filetype c1 meta = Some ps1 -> p ∈ ps1 ->
  Naming.paths os_sep figure_filetype c2 meta = Some ps2 -> p ∈ ps2 ->
  figure_number c1 = figure_number c2.
Proof.
  intros H1 Hp1 H2 Hp2.
  destruct (paths_tagged _ _ _ _ H1 Hp1) as (d & r1 & Hd & ->).
  destruct (paths_tagged _ _ _ _ H2 Hp2) as (d' & r2 & Hd' & Heq).
  rewrite Hd in Hd'. injection Hd' as <-.
  do 4 apply String.app_inj in Heq.
  destruct (figure_number_tag c1) as [L1 N1], (figure_number_tag c2) as [L2 N2].
  apply string_app_inv in Heq as [Heq _]; [|congruence].
  apply str_inj; assumption.
Qed.

Lemma paths_3301_elem (data : dataset) (m : Z) (meta : gmap string value)
    (ps : list string) (p : string) :
  Naming.paths os_sep figure_filetype (ImageAndBackground data m) meta = Some ps ->
  p ∈ ps ->
  exists n, 0 <= n /\ path_3301 os_sep figure_filetype m meta n = Some p.
Proof.
  unfold Naming.paths, paths_of.
  destruct (meta !! "int_end" ≫= Py.as_int) as [e|]; [|discriminate].
  destruct (meta !! "int_start" ≫= Py.as_int) as [s|]; [|discriminate].
  cbn [mbind option_bind]. intros H Hp. apply mapM_Some_1 in H.
  apply list_elem_of_lookup in Hp as [i Hi].
  destruct (Forall2_lookup_r _ _ _ _ _ H Hi) as (n & Hn & Hpn).
  exists n. split; [|exact Hpn].
  apply list_elem_of_lookup_2, elem_of_seqZ in Hn. lia.
Qed.

(** Cancels what two equal file names share, up to the indices, and reads
    the indices back. *)
Ltac same_indices Heq :=
  unfold code_path, component in Heq; cbn [tag file_index int_index col_index label] in Heq;
  repeat first
    [ apply String.app_inj in Heq
    | progress rewrite !string_app_assoc in Heq
    | progress rewrite !string_app_nil_l in Heq
    | let H := fresh "Hidx" in
      apply digits_then_underscore in Heq as [H Heq];
      [apply zfill_str_inj in H; [subst|lia|lia]
      |apply all_digits_zfill_str; lia
      |apply all_digits_zfill_str; lia] ].

Ltac open_paths H :=
  unfold Naming.paths, paths_of, fig_name_of in H;
  cbn [mbind option_bind] in H;
  repeat match type of H with
         | context [padded_of ?k ?v] =>
             let E := fresh "E" in
             destruct (padded_of k v) eqn:E; [|discriminate];
             apply padded_of_inv in E as [? ->]; cbn [mbind option_bind] in H
         end;
  injection H as <-.

(** Two invocations that return on the same metadata and have written the
    same path are invocations of the same figure with the same file,
    integration and column numbers (taken non-negative): no figure file is
    overwritten by another figure, file, integration or column. *)
Theorem saved_path_identifies_the_invocation (c1 c2 : call) (meta : gmap string value)
    (p : string) :
  result (run os_sep figure_filetype c1 meta) = inr tt ->
  result (run os_sep figure_filetype c2 meta) = inr tt ->
  Forall (fun k => 0 <= k) (indices c1) ->
  Forall (fun k => 0 <= k) (indices c2) ->
  p ∈ saves (trace (run os_sep figure_filetype c1 meta)) ->
  p ∈ saves (trace (run os_sep figure_filetype c2 meta)) ->
  figure_number c1 = figure_number c2 /\ indices c1 = indices c2.
Proof.
  intros Hr1 Hr2 Hi1 Hi2.
  destruct (run_summary os_sep figure_filetype c1 meta) as (_ & _ & Hp1 & _).
  destruct (run_summary os_sep figure_filetype c2 meta) as (_ & _ & Hp2 & _).
  specialize (Hp1 Hr1). specialize (Hp2 Hr2). clear Hr1 Hr2.
  revert Hp1 Hp2.
  generalize (saves (trace (run os_sep figure_filetype c1 meta))).
  generalize (saves (trace (run os_sep figure_filetype c2 meta))).
  intros ps2 ps1 H1 H2 Hin1 Hin2.
  pose proof (paths_same_figure _ _ _ _ _ _ H1 Hin1 H2 Hin2) as Hfig.
  split; [exact Hfig|].
  destruct c1, c2; try discriminate Hfig; try reflexivity; clear Hfig;
    simpl indices in *;
    repeat match goal with
           | H : Forall _ (_ :: _) |- _ => apply Forall_cons in H as [? H]
           end.
  1: { (* [image_and_background] *)
    destruct (paths_3301_elem _ _ _ _ _ H1 Hin1) as (n1 & Hn1 & E1).
    destruct (paths_3301_elem _ _ _ _ _ H2 Hin2) as (n2 & Hn2 & E2).
    unfold path_3301, fig_name_3301 in E1, E2.
    destruct (meta !! "outputdir" ≫= Py.as_str) as [d|]; [|discriminate].
    cbn [mbind option_bind] in E1, E2.
    destruct (padded_of m _) as [F1|] eqn:HF1; [|discriminate].
    destruct (padded_of n1 _) as [I1|] eqn:HI1; [|discriminate].
    destruct (padded_of m0 _) as [F2|] eqn:HF2; [|discriminate].
    destruct (padded_of n2 _) as [I2|] eqn:HI2; [|discriminate].
    apply padded_of_inv in HF1 as [? ->], HI1 as [? ->], HF2 as [? ->], HI2 as [? ->].
    cbn in E1, E2. injection E1 as <-. injection E2 as Heq.
    same_indices Heq. reflexivity. }
  all: unfold Naming.paths, paths_of in H1, H2; cbv zeta iota beta in H1, H2;
    (destruct (meta !! "outputdir" ≫= Py.as_str) as [d|]; [|discriminate]);
    open_paths H1; open_paths H2;
    apply list_elem_of_singleton in Hin1, Hin2; rewrite Hin1 in Hin2;
    same_indices Hin2; reflexivity.
Qed.

End Collisions.

(** ** Lexicographic order of padded indices *)

Section Order.

Import Py Naming PlotsS3 Trace.

Local Open Scope N_scope.

Lemma ascii_compare_refl (c : ascii) : Ascii.compare c c = Eq.
Proof. unfold Ascii.compare. apply N.compare_refl. Qed.

Lemma compare_app_prefix (s a b : string) :
  String.compare (s +:+ a) (s +:+ b) = String.compare a b.
Proof.
  induction s as [|c s IH]; [reflexivity|].
  rewrite !string_app_cons. simpl. rewrite ascii_compare_refl. exact IH.
Qed.

Lemma compare_app_lt (a b s t : string) :
  String.length a = String.length b ->
  String.compare a b = Lt -> String.compare (a +:+ s) (b +:+ t) = Lt.
Proof.
  revert b. induction a as [|c a IH]; intros [|c' b] Hlen H; try discriminate.
  rewrite !string_app_cons. simpl in *.
  destruct (Ascii.compare c c'); try discriminate; [|reflexivity].
  apply IH; [lia|exact H].
Qed.

Lemma is_digit_val (c : ascii) :
  is_digit c = true -> N_of_ascii c = 48 + digit_val c /\ digit_val c < 10.
Proof.
  unfold is_digit, digit_val. intros H.
  apply andb_true_iff in H as [H1 H2].
  apply N.leb_le in H1, H2. lia.
Qed.

(** On digit strings of one length the lexicographic order is the order
    of the numbers they denote. *)
Lemma compare_digits (s1 s2 : string) (a1 a2 : N) :
  String.length s1 = String.length s2 ->
  all_digits s1 = true -> all_digits s2 = true ->
  N.compare (int_digits a1 s1) (int_digits a2 s2)
  = match N.compare a1 a2 with
    | Eq => String.compare s1 s2
    | ne => ne
    end.
Proof.
  revert s2 a1 a2. induction s1 as [|c1 s1 IH]; intros [|c2 s2] a1 a2 Hlen H1 H2;
    try discriminate.
  - simpl. destruct (N.compare a1 a2); reflexivity.
  - simpl in H1, H2.
    apply andb_true_iff in H1 as [D1 H1]. apply andb_true_iff in H2 as [D2 H2].
    simpl int_digits. rewrite IH by (simpl in Hlen; lia || assumption).
    simpl String.compare. unfold Ascii.compare.
    destruct (is_digit_val _ D1) as [-> B1]. destruct (is_digit_val _ D2) as [-> B2].
    clear D1 D2.
    set (d1 := digit_val c1) in *. set (d2 := digit_val c2) in *.
    clearbody d1 d2.
    destruct (N.compare_spec a1 a2) as [->|Hlt|Hgt].
    + destruct (N.compare_spec d1 d2) as [->|Hlt|Hgt].
      * rewrite !N.compare_refl. reflexivity.
      * assert (10 * a2 + d1 < 10 * a2 + d2) as -> by lia.
        assert (48 + d1 < 48 + d2) as -> by lia. reflexivity.
      * assert (10 * a2 + d2 < 10 * a2 + d1) as H by lia.
        assert (48 + d2 < 48 + d1) as H' by lia.
        apply N.compare_gt_iff in H, H'. rewrite H, H'. reflexivity.
    + assert (10 * a1 + d1 < 10 * a2 + d2) as -> by lia. reflexivity.
    + assert (10 * a2 + d2 < 10 * a1 + d1) as H by lia.
      apply N.compare_gt_iff in H. rewrite H. reflexivity.
Qed.

Lemma log10_width_inr (v : value) (w : Z) :
  log10_width v = inr w ->
  exists c, as_int v = Some c /\ (0 < c < 10 ^ 14)%Z /\
            w = Z.of_nat (ndigits (Z.to_N c)).
Proof.
  unfold log10_width.
  destruct v as [|b|z|f|s]; try discriminate; simpl;
    repeat match goal with
           | |- context [if ?b then _ else _] => destruct b eqn:?
           end; try discriminate; intros [= <-];
    eexists; (split; [reflexivity|]); split; try reflexivity; lia.
Qed.

Local Close Scope N_scope.

Lemma zfill_compare (count k1 k2 : Z) :
  0 < count -> 0 <= k1 <= count -> 0 <= k2 <= count ->
  String.compare (zfill (Z.of_nat (ndigits (Z.to_N count))) (str k1))
                 (zfill (Z.of_nat (ndigits (Z.to_N count))) (str k2))
  = Z.compare k1 k2.
Proof.
  intros Hc H1 H2.
  rewrite <- Z2N.inj_compare by lia.
  rewrite <- (int_digits_zfill_str (Z.of_nat (ndigits (Z.to_N count))) k1) by lia.
  rewrite <- (int_digits_zfill_str (Z.of_nat (ndigits (Z.to_N count))) k2) by lia.
  rewrite compare_digits.
  - reflexivity.
  - rewrite !length_zfill_str by lia. reflexivity.
  - apply all_digits_zfill_str. lia.
  - apply all_digits_zfill_str. lia.
Qed.

Lemma padded_of_count (k : Z) (v : value) (c : Z) (s : string) :
  padded_of k (Some v) = Some s -> as_int v = Some c ->
  0 < c /\ s = zfill (Z.of_nat (ndigits (Z.to_N c))) (str k).
Proof.
  unfold padded_of. destruct (log10_width v) as [|w] eqn:Hw; [discriminate|].
  intros [= <-] Hc. apply log10_width_inr in Hw as (c' & Hc' & Hb & ->).
  rewrite Hc in Hc'. injection Hc' as <-. split; [lia|reflexivity].
Qed.

Variable os_sep : string.
Variable figure_filetype : string.

(** Indices between 0 and the count, padded as the routines pad them,
    compare as strings the way they compare as numbers: within one count,
    sorting the rendered indices sorts the indices. *)
Theorem padded_indices_sort_numerically (name : string) (meta : gmap string value)
    (count k1 k2 : Z) (s1 s2 : string) :
  meta !! name ≫= as_int = Some count ->
  0 <= k1 <= count -> 0 <= k2 <= count ->
  result (padded k1 name meta) = inr s1 ->
  result (padded k2 name meta) = inr s2 ->
  String.compare s1 s2 = Z.compare k1 k2.
Proof.
  intros Hc H1 H2.
  change (wp (padded k1 name) meta (fun r _ _ =>
            r = inr s1 -> result (padded k2 name meta) = inr s2 ->
            String.compare s1 s2 = Z.compare k1 k2)).
  apply wp_padded; [|discriminate].
  intros t1 Ht1 [= ->].
  change (wp (padded k2 name) meta (fun r _ _ =>
            r = inr s2 -> String.compare s1 s2 = Z.compare k1 k2)).
  apply wp_padded; [|discriminate].
  intros t2 Ht2 [= ->].
  destruct (meta !! name) as [v|]; [|discriminate]. simpl in Hc.
  destruct (padded_of_count _ _ _ _ Ht1 Hc) as [Hpos ->].
  destruct (padded_of_count _ _ _ _ Ht2 Hc) as [_ ->].
  apply zfill_compare; lia.
Qed.

(** The files a run of [image_and_background] writes come in the
    lexicographic order of their paths, provided the file holds no more
    integrations than [meta.n_int]: a sorted directory listing shows the
    integrations in the order in which they were drawn. *)
Theorem image_and_background_writes_in_sorted_order (data : dataset) (m : Z)
    (meta : gmap string value) (e s count : Z) (i j : nat) (p q : string) :
  result (run os_sep figure_filetype (ImageAndBackground data m) meta) = inr tt ->
  meta !! "int_end" ≫= as_int = Some e ->
  meta !! "int_start" ≫= as_int = Some s ->
  meta !! "n_int" ≫= as_int = Some count ->
  e - s <= count ->
  saves (trace (run os_sep figure_filetype (ImageAndBackground data m) meta)) !! i = Some p ->
  saves (trace (run os_sep figure_filetype (ImageAndBackground data m) meta)) !! j = Some q ->
  (i < j)%nat ->
  String.compare p q = Lt.
Proof.
  intros Hr He Hs Hc Hle Hi Hj Hij.
  destruct (run_summary os_sep figure_filetype (ImageAndBackground data m) meta)
    as (_ & _ & Hp & _).
  specialize (Hp Hr). unfold Naming.paths, paths_of in Hp.
  rewrite He, Hs in Hp. cbn [mbind option_bind] in Hp.
  apply mapM_Some_1 in Hp.
  destruct (Forall2_lookup_r _ _ _ _ _ Hp Hi) as (n1 & Hn1 & Hp1).
  destruct (Forall2_lookup_r _ _ _ _ _ Hp Hj) as (n2 & Hn2 & Hp2).
  apply lookup_seqZ in Hn1 as [-> Hb1]. apply lookup_seqZ in Hn2 as [-> Hb2].
  destruct (meta !! "outputdir" ≫= as_str) as [d|]; [|discriminate].
  cbn [mbind option_bind] in Hp1, Hp2. unfold fig_name_3301 in Hp1, Hp2.
  destruct (padded_of m (meta !! "num_data_files")) as [F|]; [|discriminate].
  cbn [mbind option_bind] in Hp1, Hp2.
  destruct (meta !! "n_int") as [v|]; [|discriminate]. simpl in Hc.
  destruct (padded_of (0 + Z.of_nat i) (Some v)) as [I1|] eqn:E1; [|discriminate].
  destruct (padded_of (0 + Z.of_nat j) (Some v)) as [I2|] eqn:E2; [|discriminate].
  cbn [mbind option_bind fmap option_fmap option_map] in Hp1, Hp2.
  destruct (padded_of_count _ _ _ _ E1 Hc) as [Hpos ->].
  destruct (padded_of_count _ _ _ _ E2 Hc) as [_ ->].
  injection Hp1 as <-. injection Hp2 as <-.
  unfold code_path, component. cbn [tag file_index int_index col_index label].
  rewrite !string_app_assoc.
  repeat rewrite compare_app_prefix.
  apply compare_app_lt.
  - rewrite !length_zfill_str by lia. reflexivity.
  - rewrite zfill_compare by lia. apply Z.compare_lt_iff. lia.
Qed.

End Order.

(** ** The order of events, and what a failing run leaves behind *)

Section Conduct.

Import PlotsS3 Trace Naming Session.

Variable os_sep : string.
Variable figure_filetype : string.

Lemma log10_width_exn (v : value) (e : exn) :
  Py.log10_width v = inl e -> forall a, e <> AttributeError a.
Proof.
  unfold Py.log10_width.
  destruct v; simpl;
    repeat match goal with
           | |- context [if ?b then _ else _] => destruct b
           end; intros [= <-] a; discriminate.
Qed.

Lemma masked_where_exn (c : Ma.ndarray bool) (x : Ma.ndarray float) (e : exn) :
  Ma.masked_where c x = inl e -> forall a, e <> AttributeError a.
Proof. unfold Ma.masked_where. case_decide; intros [= <-] a; discriminate. Qed.

Lemma getitem_exn (m : Ma.marray) (n : Z) (e : exn) :
  Ma.getitem m n = inl e -> forall a, e <> AttributeError a.
Proof.
  unfold Ma.getitem. destruct (Ma.ma_shape m); [intros [= <-] a; discriminate|].
  destruct (_ && _); intros [= <-] a; discriminate.
Qed.

Lemma median_axis0_exn (m : Ma.marray) (e : exn) :
  Ma.median_axis0 m = inl e -> forall a, e <> AttributeError a.
Proof.
  unfold Ma.median_axis0. destruct (Ma.ma_shape m); intros [= <-] a; discriminate.
Qed.

Ltac exn_facts :=
  repeat match goal with
         | H : Py.log10_width _ = inl _ |- _ =>
             pose proof (log10_width_exn _ _ H); clear H
         | H : Ma.masked_where _ _ = inl _ |- _ =>
             pose proof (masked_where_exn _ _ _ H); clear H
         | H : Ma.getitem _ _ = inl _ |- _ =>
             pose proof (getitem_exn _ _ _ H); clear H
         | H : Ma.median_axis0 _ = inl _ |- _ =>
             pose proof (median_axis0_exn _ _ H); clear H
         end.

Ltac by_exn :=
  match goal with
  | H : forall a, _ <> AttributeError a |- _ => exfalso; eapply H; reflexivity
  end.

Ltac conduct_leaf :=
  unfold conduct; exn_facts; subst;
  try match goal with
      | |- context [Py.truthy ?h] => destruct (Py.truthy h) eqn:?
      end;
  (split; [eexists; split;
           [reflexivity | first [discriminate | intros _; reflexivity]]|]);
  (split; [first [ reflexivity
                 | intros Hno; exfalso; eapply Hno; eassumption ]|]);
  (split; [intros attr' Ha;
           first [ discriminate Ha
                 | injection Ha as <-; assumption
                 | injection Ha as <-; congruence
                 | injection Ha as ->; by_exn ]|]);
  (split; [first [ discriminate
                 | intros _ Hs; simpl in Hs; discriminate Hs
                 | intros Ha; injection Ha as ->; by_exn ]|]);
  (split; [intros _ exn' He Hne;
           first [ reflexivity | discriminate He
                 | injection He as <-; congruence ]|]);
  intros hide' Hh' Hf;
  first [ reflexivity
        | congruence
        | match goal with
          | H : _ !! "hide_plots" = Some _ |- _ =>
              rewrite H in Hh'; injection Hh' as ->; congruence
          end ].

Ltac open_routine :=
  unfold padded, outputdir_plus, getattr_int; repeat wp_step.

Lemma drift_2D_conduct meta :
  wp (drift_2D os_sep figure_filetype) meta (fun r _ t => conduct Drift2D meta r t).
Proof. unfold drift_2D. open_routine; conduct_leaf. Qed.

Lemma optimal_spectrum_conduct n m meta :
  wp (optimal_spectrum os_sep figure_filetype n m) meta
     (fun r _ t => conduct (OptimalSpectrum n m) meta r t).
Proof. unfold optimal_spectrum. open_routine; conduct_leaf. Qed.

Lemma source_position_conduct m n g w meta :
  wp (source_position os_sep figure_filetype m n g w) meta
     (fun r _ t => conduct (SourcePosition m n g w) meta r t).
Proof. unfold source_position. open_routine; conduct_leaf. Qed.

Lemma profile_conduct n m meta :
  wp (profile os_sep figure_filetype n m) meta
     (fun r _ t => conduct (Profile n m) meta r t).
Proof. unfold profile. open_routine; conduct_leaf. Qed.

Lemma subdata_conduct i n m sh meta :
  wp (subdata os_sep figure_filetype i n m sh) meta
     (fun r _ t => conduct (Subdata i n m sh) meta r t).
Proof. unfold subdata. open_routine; conduct_leaf. Qed.

Lemma driftypos_conduct meta :
  wp (driftypos os_sep figure_filetype) meta (fun r _ t => conduct Driftypos meta r t).
Proof. unfold driftypos. open_routine; conduct_leaf. Qed.

Lemma driftywidth_conduct meta :
  wp (driftywidth os_sep figure_filetype) meta (fun r _ t => conduct Driftywidth meta r t).
Proof. unfold driftywidth. open_routine; conduct_leaf. Qed.

Lemma residualBackground_conduct data m lo hi meta :
  wp (residualBackground os_sep figure_filetype data m lo hi) meta
     (fun r _ t => conduct (ResidualBackground data m lo hi) meta r t).
Proof. unfold residualBackground. open_routine; conduct_leaf. Qed.

Lemma curvature_conduct meta :
  wp (curvature os_sep figure_filetype) meta (fun r _ t => conduct Curvature meta r t).
Proof. unfold curvature. open_routine; conduct_leaf. Qed.

Lemma median_frame_conduct meta :
  wp (median_frame os_sep figure_filetype) meta (fun r _ t => conduct MedianFrame meta r t).
Proof. unfold median_frame. open_routine; conduct_leaf. Qed.

Lemma lc_nodriftcorr_conduct meta :
  wp (lc_nodriftcorr os_sep figure_filetype) meta (fun r _ t =>
    conduct LcNodriftcorr meta r t /\
    (r = inr tt ->
     exists ta n lo hi,
       lc_defaults meta !! "time_axis" = Some ta /\
       lc_defaults meta !! "n_int" = Some n /\
       lc_defaults meta !! "vmin" = Some lo /\
       lc_defaults meta !! "vmax" = Some hi /\
       imshow_specs t = [(negb (Py.eq_str ta "y"), n, lo, hi)])).
Proof.
  unfold lc_nodriftcorr.
  refine (wp_seq _ _ _ _ _ _ (lc_block_vmin meta) _).
  intros r m t (-> & -> & ->).
  refine (wp_seq _ _ _ _ _ _ (lc_block_vmax _ (default_vmin_vmin meta)) _).
  intros r m t (-> & -> & ->).
  refine (wp_seq _ _ _ _ _ _ (lc_block_time_axis _) _).
  intros r m t (-> & -> & ->).
  fold (lc_defaults meta).
  pose proof (lc_defaults_other meta) as Hother.
  pose proof (lc_defaults_vmin meta) as [vmin Hvmin].
  pose proof (lc_defaults_vmax meta) as [vmax Hvmax].
  assert (is_Some (lc_defaults meta !! "time_axis")) as [ta Hta]
    by (destruct (default_time_axis_valid (default_vmax (default_vmin meta))) as [H|H];
        unfold lc_defaults; rewrite H; eauto).
  generalize dependent (lc_defaults meta). intros m0 Hother Hvmin Hvmax Hta.
  destruct (lc_warns _);
  open_routine;
  (split;
   [ repeat match goal with
            | H : m0 !! _ = _ |- _ => rewrite Hother in H by discriminate
            | H : forall d, m0 !! _ <> _ |- _ => rewrite Hother in H by discriminate
            end;
     conduct_leaf
   | first [ discriminate
           | clear Hvmin Hvmax Hta;
             intros _; do 4 eexists; repeat (split; [eassumption|]);
             match goal with
             | H : Py.eq_str _ _ = _ |- _ => rewrite H
             end;
             match goal with
             | |- context [Py.truthy ?h] => destruct (Py.truthy h)
             end; reflexivity ] ]).
Qed.

Lemma follow_app (k : Z) (s : phase) (t1 t2 : list event) :
  follow k s (t1 ++ t2) = follow k s t1 ≫= fun s' => follow k s' t2.
Proof.
  revert s. induction t1 as [|e t1 IH]; intros s; [reflexivity|].
  simpl. destruct (step k s e) as [s'|]; [apply IH|reflexivity].
Qed.

Lemma loop_turns data meta l r t :
  loop_trace (turn_3301 data meta) l r t ->
  (forall s, at_rest s = true ->
     exists s', follow 3301 s t = Some s' /\ (r = inr tt -> at_rest s' = true)) /\
  ((forall d, meta !! "outputdir" <> Some (VStr d)) -> saves t = []) /\
  (forall a, r = inl (AttributeError a) -> meta !! a = None) /\
  (r = inl (AttributeError "hide_plots") -> saves t <> []) /\
  (forall h, meta !! "hide_plots" = Some h -> Py.truthy h = false ->
     length (pauses t) = length (saves t)) /\
  (r = inr tt -> forall n, n ∈ l ->
     (exists f, Ma.getitem (subdata_of data) n = inr f) /\
     (exists f, Ma.getitem (subbg_of data) n = inr f)).
Proof.
  induction 1 as [|n l e t (Hf & Hd & Ha & Hh & Hp & _)
                  |n l t r t' (Hf & Hd & Ha & Hh & Hp & Hg) _
                     (IHf & IHd & IHa & IHh & IHp & IHg)].
  - split; [intros s Hs; exists s; auto|].
    split; [reflexivity|]. split; [discriminate|]. split; [discriminate|].
    split; [reflexivity|].
    intros _ k Hk. apply elem_of_nil in Hk as [].
  - split; [exact Hf|]. split; [exact Hd|]. split; [exact Ha|].
    split; [exact Hh|]. split; [exact Hp|]. discriminate.
  - split; [|split; [|split; [|split; [|split]]]].
    + intros s Hs. destruct (Hf s Hs) as (s1 & H1 & R1).
      destruct (IHf s1 (R1 eq_refl)) as (s2 & H2 & R2).
      exists s2. rewrite follow_app, H1. split; [exact H2|exact R2].
    + intros Hno. rewrite saves_app, (Hd Hno), (IHd Hno). reflexivity.
    + exact IHa.
    + intros Hr. rewrite saves_app. specialize (IHh Hr).
      destruct (saves t); [exact IHh|discriminate].
    + intros h H1 H2. rewrite pauses_app, saves_app, !length_app.
      rewrite (Hp h H1 H2), (IHp h H1 H2). reflexivity.
    + intros -> n' Hn'. apply elem_of_cons in Hn' as [->|Hn'].
      * apply Hg. reflexivity.
      * apply IHg; [reflexivity|exact Hn'].
Qed.

Lemma masked_where_shape condition a x :
  Ma.masked_where condition a = inr x -> Ma.shape condition = Ma.shape a.
Proof. unfold Ma.masked_where. case_decide; [auto|discriminate]. Qed.

Ltac turn_leaf :=
  unfold turn_3301; exn_facts; subst;
  try match goal with
      | |- context [Py.truthy ?h] => destruct (Py.truthy h) eqn:?
      end;
  (split; [intros st Hst; destruct st; try discriminate Hst;
           (eexists; split;
            [reflexivity | first [discriminate | intros _; reflexivity]])|]);
  (split; [first [ reflexivity
                 | intros Hno; exfalso; eapply Hno; eassumption ]|]);
  (split; [intros attr' Ha;
           first [ discriminate Ha
                 | injection Ha as <-; assumption
                 | injection Ha as ->; by_exn ]|]);
  (split; [first [ discriminate
                 | intros _ Hs; simpl in Hs; discriminate Hs
                 | intros Ha; injection Ha as ->; by_exn ]|]);
  (split; [intros hide' Hh' Hf;
           first [ reflexivity
                 | congruence
                 | match goal with
                   | H : _ !! "hide_plots" = Some _ |- _ =>
                       rewrite H in Hh'; injection Hh' as ->; congruence
                   end ]|]);
  first [ discriminate
        | intros _; split; eexists; eassumption ].

(** What a run of [image_and_background] satisfies; the last part is
    about the frames a returning run has drawn. *)
Lemma image_and_background_conduct data m meta :
  wp (image_and_background os_sep figure_filetype data m) meta (fun r _ t =>
    conduct (ImageAndBackground data m) meta r t /\
    (r = inr tt ->
     Ma.shape (mask data) = Ma.shape (flux data) /\
     Ma.shape (mask data) = Ma.shape (bg data) /\
     exists e s,
       meta !! "int_end" ≫= Py.as_int = Some e /\
       meta !! "int_start" ≫= Py.as_int = Some s /\
       forall n, 0 <= n < e - s ->
         (exists f, Ma.getitem (subdata_of data) n = inr f) /\
         (exists f, Ma.getitem (subbg_of data) n = inr f))).
Proof.
  unfold image_and_background.
  repeat wp_step;
    lazymatch goal with
    | |- wp (for_range _ _) _ _ => idtac
    | _ => split; [conduct_leaf|discriminate]
    end.
  repeat match goal with
         | H : Ma.masked_where _ _ = inr _ |- _ =>
             pose proof (masked_where_shape _ _ _ H); apply masked_where_inr in H; subst
         end.
  eapply wp_mono.
  - apply (wp_for_range _ _ _ (turn_3301 data meta)).
    intros n Hn. unfold padded, outputdir_plus.
    repeat wp_step; (split; [reflexivity|]); turn_leaf.
  - simpl. intros r m' t [-> Hloop].
    apply loop_turns in Hloop as (Hf & Hd & Ha & Hh & Hp & Hg).
    split.
    + unfold conduct. split; [|split; [|split; [|split; [|split]]]]; auto.
      destruct (Hf Start eq_refl) as (s' & Hs1 & Hs2). exists s'. auto.
    + intros ->. split; [assumption|]. split; [assumption|].
      do 2 eexists.
      repeat match goal with
             | H : _ !! _ = Some _ |- _ => rewrite H
             end.
      simpl. split; [eassumption|]. split; [eassumption|].
      intros n Hn. apply Hg; [reflexivity|]. apply elem_of_seqZ. lia.
Qed.

Lemma run_conduct (c : call) (meta : gmap string value) :
  conduct c meta (result (run os_sep figure_filetype c meta))
          (trace (run os_sep figure_filetype c meta)).
Proof.
  change (wp (run os_sep figure_filetype c) meta (fun r _ t => conduct c meta r t)).
  destruct c; simpl PlotsS3.run.
  - eapply wp_mono; [apply lc_nodriftcorr_conduct|]. intros r m t [H _]. exact H.
  - eapply wp_mono; [apply image_and_background_conduct|]. intros r m' t [H _]. exact H.
  - apply drift_2D_conduct.
  - apply optimal_spectrum_conduct.
  - apply source_position_conduct.
  - apply profile_conduct.
  - apply subdata_conduct.
  - apply driftypos_conduct.
  - apply driftywidth_conduct.
  - apply residualBackground_conduct.
  - apply curvature_conduct.
  - apply median_frame_conduct.
Qed.

(** In every run, returning or raising, the calls into the plotting
    library come in one order: messages first; then, for each figure,
    [plt.figure] with the routine's own number, [plt.clf] directly after
    it, drawing, [plt.savefig], and [plt.pause] only directly after that.
    Nothing is drawn on a figure that was not selected and cleared, and a
    run that returns leaves no figure unsaved. *)
Theorem figures_are_selected_cleared_drawn_then_saved (c : call)
    (meta : gmap string value) :
  exists s,
    follow (figure_number c) Start (trace (run os_sep figure_filetype c meta)) = Some s /\
    (result (run os_sep figure_filetype c meta) = inr tt -> at_rest s = true).
Proof. exact (proj1 (run_conduct c meta)). Qed.

(** Without an output directory that is a string no routine writes a
    file, and every routine but [image_and_background] (which has nothing
    to write on an empty range) raises. *)
Theorem nothing_is_saved_without_an_output_directory (c : call)
    (meta : gmap string value) :
  (forall d, meta !! "outputdir" <> Some (VStr d)) ->
  saves (trace (run os_sep figure_filetype c meta)) = [] /\
  (single c = true -> result (run os_sep figure_filetype c meta) <> inr tt).
Proof.
  intros Hno. destruct (run_conduct c meta) as (_ & Hd & _).
  split; [exact (Hd Hno)|].
  intros Hc Hr.
  destruct (run_summary os_sep figure_filetype c meta) as (_ & _ & Hp & _).
  specialize (Hp Hr). rewrite (Hd Hno) in Hp.
  apply paths_singleton in Hp; [discriminate Hp|].
  intros data m ->. discriminate Hc.
Qed.

(** An [AttributeError] names an attribute that the metadata lacked when
    the routine was called. *)
Theorem attribute_errors_name_missing_attributes (c : call)
    (meta : gmap string value) (a : string) :
  result (run os_sep figure_filetype c meta) = inl (AttributeError a) ->
  meta !! a = None.
Proof. destruct (run_conduct c meta) as (_ & _ & Ha & _). apply Ha. Qed.

(** A routine that makes one figure and raises has written no file,
    except when the exception is the [AttributeError] for [hide_plots]:
    that attribute is read after the figure has been saved. *)
Theorem a_failed_run_has_written_no_file (c : call) (meta : gmap string value)
    (e : exn) :
  single c = true ->
  result (run os_sep figure_filetype c meta) = inl e ->
  (saves (trace (run os_sep figure_filetype c meta)) = [] <->
   e <> AttributeError "hide_plots").
Proof.
  intros Hc Hr. destruct (run_conduct c meta) as (_ & _ & _ & Hh & Hs & _).
  split.
  - intros Hnil ->. exact (Hh Hr Hnil).
  - intros Hne. exact (Hs Hc e Hr Hne).
Qed.

(** With [hide_plots] false, every run has paused once for each file it
    has written. *)
Theorem shown_plots_pause_after_every_file (c : call) (meta : gmap string value)
    (h : value) :
  meta !! "hide_plots" = Some h -> Py.truthy h = false ->
  length (pauses (trace (run os_sep figure_filetype c meta)))
  = length (saves (trace (run os_sep figure_filetype c meta))).
Proof.
  intros H1 H2. destruct (run_conduct c meta) as (_ & _ & _ & _ & _ & Hp).
  exact (Hp h H1 H2).
Qed.


(** The image that [lc_nodriftcorr] draws uses the settings the call
    leaves in the metadata: it is drawn once, with the axes swapped exactly
    when [time_axis] is "x", over [n_int] integrations and between [vmin]
    and [vmax] as they are after the defaults. *)
Theorem lc_nodriftcorr_draws_with_the_settings_it_leaves (meta : gmap string value) :
  let o := lc_nodriftcorr os_sep figure_filetype meta in
  result o = inr tt ->
  exists sw n lo hi,
    meta_after o !! "time_axis" = Some (VStr (if sw : bool then "x" else "y")) /\
    meta_after o !! "n_int" = Some n /\
    meta_after o !! "vmin" = Some lo /\
    meta_after o !! "vmax" = Some hi /\
    imshow_specs (trace o) = [(sw, n, lo, hi)].
Proof.
  intros o Hr. subst o.
  destruct (lc_nodriftcorr_spec os_sep figure_filetype meta) as (Hm & _).
  pose proof (lc_nodriftcorr_conduct meta) as H.
  unfold wp in H. destruct H as [_ H].
  destruct (H Hr) as (ta & n & lo & hi & Hta & Hn & Hlo & Hhi & Hs).
  rewrite Hm, Hs.
  assert (ta = VStr "y" \/ ta = VStr "x") as [->| ->].
  { rewrite lc_defaults_time_axis in Hta.
    destruct (default_time_axis_valid meta) as [Hy|Hx]; [left|right]; congruence. }
  - exists false, n, lo, hi. auto.
  - exists true, n, lo, hi. auto.
Qed.

(** On an empty range of integrations ([int_end] not above [int_start])
    [image_and_background] returns after its log line, muted unless
    [verbose] is true: it selects no figure and writes no file, and needs
    neither the output directory nor the counts behind the file names. *)
Theorem image_and_background_on_an_empty_range (data : dataset) (m : Z)
    (meta : gmap string value) (v : value) (e s : Z) :
  meta !! "verbose" = Some v ->
  meta !! "int_end" ≫= Py.as_int = Some e ->
  meta !! "int_start" ≫= Py.as_int = Some s ->
  e <= s ->
  Ma.shape (mask data) = Ma.shape (flux data) ->
  Ma.shape (mask data) = Ma.shape (bg data) ->
  result (run os_sep figure_filetype (ImageAndBackground data m) meta) = inr tt /\
  trace (run os_sep figure_filetype (ImageAndBackground data m) meta)
  = [Writelog "  Creating figures for background subtraction..." (negb (Py.truthy v))].
Proof.
  intros Hv He Hs Hle Hf Hb.
  change (wp (image_and_background os_sep figure_filetype data m) meta
            (fun r _ t => r = inr tt /\
               t = [Writelog "  Creating figures for background subtraction..."
                             (negb (Py.truthy v))])).
  unfold image_and_background.
  repeat wp_step;
    repeat match goal with
           | H : Ma.masked_where _ _ = inl _ |- _ =>
               unfold Ma.masked_where in H; simpl in H;
               rewrite decide_True in H by congruence; discriminate H
           | H : meta !! "verbose" = _ |- _ => rewrite Hv in H
           | H : meta !! "int_end" = _ |- _ => rewrite H in He; clear H
           | H : meta !! "int_start" = _ |- _ => rewrite H in Hs; clear H
           end;
    simpl in *; simplify_eq;
    try congruence.
  unfold for_range. rewrite seqZ_nil by lia. apply wp_ret.
  split; reflexivity.
Qed.

End Conduct.

(** ** Instances on the example run *)

(** Two calls of [source_position] for file 7 and integration 3 that
    differ in their flags write the same path: same figure, same indices. *)
Lemma saved_path_identifies_the_invocation_witness :
  PlotsS3.figure_number (PlotsS3.SourcePosition 7 3 true false)
  = PlotsS3.figure_number (PlotsS3.SourcePosition 7 3 false true) /\
  Calls.indices (PlotsS3.SourcePosition 7 3 true false)
  = Calls.indices (PlotsS3.SourcePosition 7 3 false true).
Proof.
  apply (saved_path_identifies_the_invocation "/" ".png"
           (PlotsS3.SourcePosition 7 3 true false)
           (PlotsS3.SourcePosition 7 3 false true)
           Examples.meta100 "out/figs/fig3102_file007_int003_source_pos.png").
  - vm_compute. reflexivity.
  - vm_compute. reflexivity.
  - repeat constructor; lia.
  - repeat constructor; lia.
  - vm_compute. left.
  - vm_compute. left.
Defined.

Lemma padded_indices_sort_numerically_witness :
  String.compare "007" "042" = Z.compare 7 42.
Proof.
  apply (padded_indices_sort_numerically "n_int" Examples.meta100 100 7 42).
  - vm_compute. reflexivity.
  - lia.
  - lia.
  - vm_compute. reflexivity.
  - vm_compute. reflexivity.
Defined.

Lemma image_and_background_writes_in_sorted_order_witness :
  String.compare "out/figs/fig3301_file007_int000_ImageAndBackground.png"
                 "out/figs/fig3301_file007_int001_ImageAndBackground.png" = Lt.
Proof.
  apply (image_and_background_writes_in_sorted_order "/" ".png" Examples.data2 7
           Examples.meta100 2 0 100 0 1).
  - vm_compute. reflexivity.
  - vm_compute. reflexivity.
  - vm_compute. reflexivity.
  - vm_compute. reflexivity.
  - lia.
  - vm_compute. reflexivity.
  - vm_compute. reflexivity.
  - lia.
Defined.

Lemma nothing_is_saved_without_an_output_directory_witness :
  let o := PlotsS3.run "/" ".png" PlotsS3.Drift2D (delete "outputdir" Examples.meta100) in
  Trace.saves (PlotsS3.trace o) = [] /\
  (Session.single PlotsS3.Drift2D = true -> PlotsS3.result o <> inr tt).
Proof.
  apply (nothing_is_saved_without_an_output_directory "/" ".png" PlotsS3.Drift2D
           (delete "outputdir" Examples.meta100)).
  intros d. vm_compute. discriminate.
Defined.

Lemma attribute_errors_name_missing_attributes_witness :
  delete "outputdir" Examples.meta100 !! "outputdir" = None.
Proof.
  apply (attribute_errors_name_missing_attributes "/" ".png" PlotsS3.Drift2D
           (delete "outputdir" Examples.meta100) "outputdir").
  vm_compute. reflexivity.
Defined.

(** Without [hide_plots] the figure of [drift_2D] is written before the
    routine raises. *)
Lemma a_failed_run_has_written_no_file_witness :
  let o := PlotsS3.run "/" ".png" PlotsS3.Drift2D (delete "hide_plots" Examples.meta100) in
  Trace.saves (PlotsS3.trace o) = [] <->
  AttributeError "hide_plots" <> AttributeError "hide_plots".
Proof.
  apply (a_failed_run_has_written_no_file "/" ".png" PlotsS3.Drift2D
           (delete "hide_plots" Examples.meta100) (AttributeError "hide_plots")).
  - reflexivity.
  - vm_compute. reflexivity.
Defined.

Lemma shown_plots_pause_after_every_file_witness :
  let o := PlotsS3.run "/" ".png" (PlotsS3.ImageAndBackground Examples.data2 7)
                       Examples.meta100 in
  length (Trace.pauses (PlotsS3.trace o)) = length (Trace.saves (PlotsS3.trace o)).
Proof.
  apply (shown_plots_pause_after_every_file "/" ".png"
           (PlotsS3.ImageAndBackground Examples.data2 7) Examples.meta100 (VBool false)).
  - vm_compute. reflexivity.
  - reflexivity.
Defined.


Lemma lc_nodriftcorr_draws_with_the_settings_it_leaves_witness :
  let o := PlotsS3.lc_nodriftcorr "/" ".png" Examples.meta100 in
  exists sw n lo hi,
    PlotsS3.meta_after o !! "time_axis" = Some (VStr (if sw : bool then "x" else "y")) /\
    PlotsS3.meta_after o !! "n_int" = Some n /\
    PlotsS3.meta_after o !! "vmin" = Some lo /\
    PlotsS3.meta_after o !! "vmax" = Some hi /\
    Session.imshow_specs (PlotsS3.trace o) = [(sw, n, lo, hi)].
Proof.
  apply (lc_nodriftcorr_draws_with_the_settings_it_leaves "/" ".png" Examples.meta100).
  vm_compute. reflexivity.
Defined.

Lemma image_and_background_on_an_empty_range_witness :
  let meta := <["int_end" := VInt 0]> Examples.meta100 in
  let o := PlotsS3.run "/" ".png" (PlotsS3.ImageAndBackground Examples.data2 7) meta in
  PlotsS3.result o = inr tt /\
  PlotsS3.trace o
  = [PlotsS3.Writelog "  Creating figures for background subtraction..."
                      (negb (Py.truthy (VBool false)))].
Proof.
  apply (image_and_background_on_an_empty_range "/" ".png" Examples.data2 7
           (<["int_end" := VInt 0]> Examples.meta100) (VBool false) 0 0).
  - vm_compute. reflexivity.
  - vm_compute. reflexivity.
  - vm_compute. reflexivity.
  - lia.
  - reflexivity.
  - reflexivity.
Defined.
